(** * sunrise_sunset: the sunrise / sunset calculator of [sunrise_sunset.py]

    A shallow embedding of [location.ss_calc] and of what it rests on:
    Python's [int] as [Z], Python's [float] as the kernel's binary64
    [float] (the arithmetic of both is IEEE 754 round-to-nearest-even),
    exceptions as an error outcome, [print] and [time.time()] as an
    explicit world that is threaded through every call. *)

From Stdlib Require Import ZArith Lia Bool List String.
From Stdlib Require Import Floats.
From Stdlib Require Ascii.
Import ListNotations.

Set Warnings "-inexact-float".

Local Open Scope Z_scope.

(** ** Python values, exceptions *)

(** The exceptions the modelled code can raise. *)
Inductive exn : Type :=
| ValueError (msg : string)
| OverflowError (msg : string)
| ZeroDivisionError (msg : string)
| AssertionError.

(** The outcome of a call: a value, or a raised exception. *)
Inductive outcome (A : Type) : Type :=
| Ok (a : A)
| Raise (e : exn).
Arguments Ok {A} a.
Arguments Raise {A} e.

(** Sequencing: the first exception raised ends the evaluation. *)
Definition and_then {A B} (o : outcome A) (k : A -> outcome B) : outcome B :=
  match o with
  | Ok a => k a
  | Raise e => Raise e
  end.

Declare Scope outcome_scope.
Delimit Scope outcome_scope with outcome.
Notation "x <~ o ;; k" := (and_then o (fun x => k))
  (at level 61, o at next level, right associativity) : outcome_scope.

(** The arguments a caller may hand to [location(...)]: Python is untyped,
    the constructor inspects [type(latitude)]. *)
Inductive pyval : Type :=
| PyNone
| PyBool (b : bool)
| PyInt (z : Z)
| PyFloat (f : float)
| PyStr (s : string).

(** ** Floats *)

Module Float.

(** [float(z)] for an integer: exact when [|z| < 2^53], which is the
    only range the calculator feeds; rounded to nearest even beyond. *)
Definition of_Z (z : Z) : float :=
  SF2Prim (binary_normalize prec emax z 0 false).

(** The exact value of a finite float as [m * 2^e]. *)
Definition to_mant_exp (x : float) : option (Z * Z) :=
  match Prim2SF x with
  | S754_zero _ => Some (0, 0)
  | S754_finite s m e => Some (if s then Z.neg m else Z.pos m, e)
  | S754_infinity _ | S754_nan => None
  end.

(** The largest integer not above a finite float. *)
Definition floorZ (x : float) : option Z :=
  match to_mant_exp x with
  | Some (m, e) => Some (if 0 <=? e then m * 2 ^ e else m / 2 ^ (- e))
  | None => None
  end.

(** A finite float cut towards zero. *)
Definition truncZ (x : float) : option Z :=
  match to_mant_exp x with
  | Some (m, e) => Some (if 0 <=? e then m * 2 ^ e else Z.quot m (2 ^ (- e)))
  | None => None
  end.

End Float.

(** [a / b] on two Python ints: true division, the float nearest to the
    quotient (both ints are far below [2^53] here, so they convert exactly). *)
Definition int_truediv (a b : Z) : outcome float :=
  if b =? 0 then Raise (ZeroDivisionError "division by zero")
  else Ok (Float.of_Z a / Float.of_Z b)%float.

(** [a / b] on two Python floats. *)
Definition float_truediv (a b : float) : outcome float :=
  if (b =? 0)%float then Raise (ZeroDivisionError "float division by zero")
  else Ok (a / b)%float.

(** [math.floor(x)] on a float. *)
Definition math_floor (x : float) : outcome Z :=
  match Float.floorZ x with
  | Some z => Ok z
  | None =>
      if is_nan x then Raise (ValueError "cannot convert float NaN to integer")
      else Raise (OverflowError "cannot convert float infinity to integer")
  end.

(** [int(x)] on a float. *)
Definition int_of_float (x : float) : outcome Z :=
  match Float.truncZ x with
  | Some z => Ok z
  | None =>
      if is_nan x then Raise (ValueError "cannot convert float NaN to integer")
      else Raise (OverflowError "cannot convert float infinity to integer")
  end.


(** ** The C library behind Python's [math] module

    [math.sin], [math.acos], ... hand their argument to the platform's C
    library, which is not part of the repository.  The calculator is stated
    over any such library.  [Libm.reference] is one, used wherever a
    statement needs a number: it evaluates each function on the exact value
    of its argument in fixed point with 128 fractional bits and rounds the
    result to the nearest float, so it returns the float nearest to the
    true value except within about [2^-100] of a tie.  A C library may
    differ from it in the last bit of a result. *)

Record libm : Type := {
  c_sin  : float -> float;
  c_cos  : float -> float;
  c_tan  : float -> float;
  c_asin : float -> float;
  c_acos : float -> float;
  c_atan : float -> float
}.

Module Libm.

(** Reals are held in fixed point: [r] as the integer [r * 2^P], cut
    towards zero. *)
Definition P : Z := 128.
Definition unit : Z := Eval vm_compute in 2 ^ P.

Definition fmul (a b : Z) : Z :=
  let p := a * b in
  if p <? 0 then - Z.shiftr (- p) P else Z.shiftr p P.
Definition fdiv (a b : Z) : Z := Z.quot (a * unit) b.

(** [x - x^3/3 + x^5/5 - ...]: [pow] is the signed power of the current
    term, [k] its odd index. *)
Fixpoint atan_series (fuel : nat) (pow x2 k acc : Z) : Z :=
  match fuel with
  | O => acc
  | S fuel' =>
      if pow =? 0 then acc
      else atan_series fuel' (- fmul pow x2) x2 (k + 2) (acc + Z.quot pow k)
  end.

Definition atan_small (x : Z) : Z := atan_series 200 x (fmul x x) 1 0.

(** Machin: [pi = 16 atan (1/5) - 4 atan (1/239)]. *)
Definition pi : Z :=
  Eval vm_compute in 16 * atan_small (unit / 5) - 4 * atan_small (unit / 239).
Definition half_pi : Z := Eval vm_compute in pi / 2.
Definition two_pi : Z := Eval vm_compute in 2 * pi.

(** [term + term' + ...] of the sine or cosine series: each term is the
    one before times [- x^2 / ((k+1)(k+2))]. *)
Fixpoint trig_series (fuel : nat) (term x2 k acc : Z) : Z :=
  match fuel with
  | O => acc
  | S fuel' =>
      if term =? 0 then acc
      else trig_series fuel'
             (- Z.quot (fmul term x2) ((k + 1) * (k + 2))) x2 (k + 2) (acc + term)
  end.

(** The argument split as [k * pi/2 + r] with [|r| <= pi/4]: the quadrant
    [k mod 4] and the remainder [r]. *)
Definition quadrant (x : Z) : Z * Z :=
  let k := (2 * x + half_pi) / (2 * half_pi) in
  (k mod 4, x - k * half_pi).

Definition sin_small (r : Z) : Z := trig_series 200 r (fmul r r) 1 0.
Definition cos_small (r : Z) : Z := trig_series 200 unit (fmul r r) 0 0.

Definition sin_fix (x : Z) : Z :=
  let '(q, r) := quadrant x in
  if q =? 0 then sin_small r
  else if q =? 1 then cos_small r
  else if q =? 2 then - sin_small r
  else - cos_small r.

Definition cos_fix (x : Z) : Z :=
  let '(q, r) := quadrant x in
  if q =? 0 then cos_small r
  else if q =? 1 then - sin_small r
  else if q =? 2 then - cos_small r
  else sin_small r.

(** [atan y] for [|y| <= 1]: two uses of
    [atan y = 2 atan (y / (1 + sqrt (1 + y^2)))], then the series. *)
Definition atan_halve (y : Z) : Z :=
  fdiv y (unit + Z.sqrt (unit * unit + y * y)).
Definition atan_unit (y : Z) : Z :=
  4 * atan_small (atan_halve (atan_halve y)).

(** [atan (num / den)] for [den > 0]. *)
Definition atan_ratio (num den : Z) : Z :=
  if Z.abs num <=? den then atan_unit (Z.quot (num * unit) den)
  else Z.sgn num * (half_pi - atan_unit (Z.quot (den * unit) (Z.abs num))).

(** A float as a fixed-point number; exact when its exponent is above [-P]. *)
Definition to_fix (x : float) : option Z :=
  match Float.to_mant_exp x with
  | Some (m, e) =>
      Some (if 0 <=? e + P then m * 2 ^ (e + P) else Z.quot m (2 ^ (- (e + P))))
  | None => None
  end.

(** A fixed-point number rounded to the nearest float, ties to even. *)
Definition of_fix (r : Z) : float :=
  SF2Prim (binary_normalize prec emax r (- P) false).

(** Below this magnitude [sin x], [tan x], [asin x] and [atan x] round to [x]. *)
Definition tiny (x : float) : bool := (abs x <? 0x1p-30)%float.

Definition sin (x : float) : float :=
  if tiny x then x
  else match to_fix x with
       | Some r => of_fix (sin_fix r)
       | None => nan
       end.

Definition cos (x : float) : float :=
  match to_fix x with
  | Some r => of_fix (cos_fix r)
  | None => nan
  end.

Definition tan (x : float) : float :=
  if tiny x then x
  else match to_fix x with
       | Some r =>
           let c := cos_fix r in
           if c =? 0 then nan else of_fix (fdiv (sin_fix r) c)
       | None => nan
       end.

Definition atan (x : float) : float :=
  if tiny x then x
  else match Float.to_mant_exp x with
       | Some (m, e) =>
           of_fix (if 0 <=? e then atan_ratio (m * 2 ^ e) 1
                   else atan_ratio m (2 ^ (- e)))
       | None =>
           if is_nan x then nan
           else of_fix (if (x <? 0)%float then - half_pi else half_pi)
       end.

(** [asin x] in fixed point, for [|x| <= 1]. *)
Definition asin_fix (r : Z) : Z :=
  if Z.abs r =? unit then Z.sgn r * half_pi
  else atan_ratio r (Z.sqrt (unit * unit - r * r)).

Definition in_domain (x : float) : bool := (abs x <=? 1)%float.

Definition asin (x : float) : float :=
  if tiny x then x
  else if in_domain x then
    match to_fix x with
    | Some r => of_fix (asin_fix r)
    | None => nan
    end
  else nan.

Definition acos (x : float) : float :=
  if in_domain x then
    match to_fix x with
    | Some r => of_fix (half_pi - asin_fix r)
    | None => nan
    end
  else nan.

Definition reference : libm :=
  {| c_sin := sin; c_cos := cos; c_tan := tan;
     c_asin := asin; c_acos := acos; c_atan := atan |}.

End Libm.

(** ** The world: wall clock and standard output *)

(** An argument of a [%]-formatted message. *)
Inductive fmt_arg : Type :=
| AStr (s : string)
| AInt (z : Z)
| AFloat (x : float).

(** [fmt % args], kept unrendered. *)
Record text : Type := Fmt { fmt : string; fmt_args : list fmt_arg }.

(** One line printed by [local_template.message] or [set_verbose]:
    ["---- %4.4f %s.%s - %s" % (elapsed, classname, method, msg)]. *)
Record line : Type := Line {
  ln_elapsed : float;
  ln_class : string;
  ln_method : string;
  ln_msg : text
}.

(** What a call can read and change besides its arguments: the reading of
    the wall clock at each successive [time.time()], and what was printed
    so far (latest line last). *)
Record world : Type := World {
  wall : nat -> float;
  ticks : nat;
  stdout : list line
}.

(** Computations that may read the clock, print, and raise. *)
Definition py (A : Type) : Type := world -> outcome A * world.

Definition ret {A} (a : A) : py A := fun w => (Ok a, w).

Definition raise {A} (e : exn) : py A := fun w => (Raise e, w).

Definition bind {A B} (c : py A) (k : A -> py B) : py B :=
  fun w =>
    match c w with
    | (Ok a, w') => k a w'
    | (Raise e, w') => (Raise e, w')
    end.

(** A pure step that may raise. *)
Definition lift {A} (o : outcome A) : py A := fun w => (o, w).

Declare Scope py_scope.
Delimit Scope py_scope with py.
Notation "x <- c ;; k" := (bind c (fun x => k))
  (at level 61, c at next level, right associativity) : py_scope.
Notation "c ;; k" := (bind c (fun _ => k))
  (at level 61, right associativity) : py_scope.

(** [time.time()] *)
Definition time_time : py float :=
  fun w => (Ok (wall w (ticks w)),
            {| wall := wall w; ticks := S (ticks w); stdout := stdout w |}).

(** [print(...)] of one formatted line. *)
Definition print (l : line) : py unit :=
  fun w => (Ok tt, {| wall := wall w; ticks := ticks w; stdout := stdout w ++ [l] |}).

(** ** [datetime] *)

Module Date.
(** [datetime.date]: year, month, day. *)
Record t : Type := make { year : Z; month : Z; day : Z }.

Definition is_leap (y : Z) : bool :=
  (y mod 4 =? 0) && (negb (y mod 100 =? 0) || (y mod 400 =? 0)).

Definition days_in_month (y m : Z) : Z :=
  if m =? 2 then (if is_leap y then 29 else 28)
  else if (m =? 4) || (m =? 6) || (m =? 9) || (m =? 11) then 30
  else 31.

(** The triples [datetime.date(year, month, day)] accepts. *)
Definition valid (d : t) : bool :=
  (1 <=? year d) && (year d <=? 9999) &&
  (1 <=? month d) && (month d <=? 12) &&
  (1 <=? day d) && (day d <=? days_in_month (year d) (month d)).
End Date.

Inductive tzinfo : Type :=
| tzutc.

Module Datetime.
(** [datetime.datetime], microsecond left at its default 0. *)
Record t : Type := make {
  year : Z; month : Z; day : Z;
  hour : Z; minute : Z; second : Z;
  tz : tzinfo
}.

(** [datetime.datetime(year, month, day, hour=, minute=, second=, tzinfo=)]:
    the constructor checks every field and raises [ValueError]. *)
Definition new (year month day hour minute second : Z) (tz : tzinfo) : outcome t :=
  if negb ((1 <=? year) && (year <=? 9999)) then
    Raise (ValueError "year is out of range")
  else if negb ((1 <=? month) && (month <=? 12)) then
    Raise (ValueError "month must be in 1..12")
  else if negb ((1 <=? day) && (day <=? Date.days_in_month year month)) then
    Raise (ValueError "day is out of range for month")
  else if negb ((0 <=? hour) && (hour <=? 23)) then
    Raise (ValueError "hour must be in 0..23")
  else if negb ((0 <=? minute) && (minute <=? 59)) then
    Raise (ValueError "minute must be in 0..59")
  else if negb ((0 <=? second) && (second <=? 59)) then
    Raise (ValueError "second must be in 0..59")
  else Ok (make year month day hour minute second tz).



End Datetime.

(** ** [math] *)

Section Math.

Variable m : libm.

(** [math.pi] *)
Definition math_pi : float := 0x1.921fb54442d18p+1%float.

(** [math.radians(x)] and [math.degrees(x)]: one multiplication each. *)
Definition math_radians (x : float) : float := (x * (math_pi / 180))%float.
Definition math_degrees (x : float) : float := (x * (180 / math_pi))%float.

(** How [math] wraps a C function of one argument: a NaN out of a number,
    or an infinity out of a finite number, is a [ValueError]. *)
Definition math_1 (func : float -> float) (x : float) : outcome float :=
  let r := func x in
  if is_nan r && negb (is_nan x) then Raise (ValueError "math domain error")
  else if is_infinity r && is_finite x then Raise (ValueError "math domain error")
  else Ok r.

Definition math_sin := math_1 (c_sin m).
Definition math_cos := math_1 (c_cos m).
Definition math_tan := math_1 (c_tan m).
Definition math_asin := math_1 (c_asin m).
Definition math_acos := math_1 (c_acos m).
Definition math_atan := math_1 (c_atan m).

End Math.

(** ** [class local_template] and [class location] *)

(** The attributes [local_template.__init__] sets. *)
Record local_template : Type := {
  verbose : Z;
  start_time : float;
  typename : string;
  classname : string
}.

(** A constructed [location]: the inherited attributes and its own. *)
Record location : Type := {
  base : local_template;
  latitude : float;
  longitude : float;
  zenith : list string   (* the one-element tuple [('official',)] *)
}.

Local Open Scope string_scope.
Local Open Scope Z_scope.
Local Open Scope py_scope.

(** [local_template.__init__] *)
Definition local_template_init : py local_template :=
  now <- time_time ;;
  ret {| verbose := 1; start_time := now;
         typename := "local_template";
         classname := "sunrise_sunset.local_template" |}.

(** [local_template.message]; [classname] is never passed by the callers
    modelled here, so it is [self.classname]. *)
Definition message (self : local_template) (verbosity : Z) (msg : text)
    (method : string) : py unit :=
  if verbosity <=? verbose self then
    now <- time_time ;;
    print (Line (now - start_time self)%float (classname self) method msg)
  else ret tt.

(** [local_template.set_verbose]: the object with its new level, and the
    level in force before. *)
Definition set_verbose (self : local_template) (verbosity : Z)
    : py (Z * local_template) :=
  let old_verbosity := verbose self in
  let self := {| verbose := verbosity; start_time := start_time self;
                 typename := typename self; classname := classname self |} in
  (if negb (old_verbosity =? verbose self) && (0 <? verbosity) then
     now <- time_time ;;
     print (Line (now - start_time self)%float (classname self) "set_verbose"
              (Fmt "set_verbose - Altering verbose from %s to %s"
                 [AInt old_verbosity; AInt (verbose self)]))
   else ret tt) ;;
  ret (old_verbosity, self).

(** [location.__init__(latitude, longitude, verbose=1)] *)
Definition location_init (latitude longitude : pyval) (verbosity : Z)
    : py location :=
  self <- local_template_init ;;
  let self := {| verbose := verbose self; start_time := start_time self;
                 typename := "location";
                 classname := "sunrise_sunset.location" |} in
  r <- set_verbose self verbosity ;;
  let self := snd r in
  message self 1 (Fmt "location class constructor" []) "__init__" ;;
  match latitude with
  | PyFloat lat =>
      match longitude with
      | PyFloat lon =>
          ret {| base := self; latitude := lat; longitude := lon;
                 zenith := ["official"] |}
      | _ => raise AssertionError
      end
  | _ => raise AssertionError
  end.

(** Step 1 of [ss_calc], the day of the year (the four assignments to
    [N1], [N2], [N3] and [N]): [/] is Python's true division, so each
    quotient is a float that [math.floor] turns back into an int. *)
Definition day_of_year (date : Date.t) : outcome Z :=
  (q1 <~ int_truediv (275 * Date.month date) 9 ;;
   N1 <~ math_floor q1 ;;
   q2 <~ int_truediv (Date.month date + 9) 12 ;;
   N2 <~ math_floor q2 ;;
   q3 <~ int_truediv (Date.year date) 4 ;;
   f3 <~ math_floor q3 ;;
   q4 <~ int_truediv (Date.year date - 4 * f3 + 2) 3 ;;
   f4 <~ math_floor q4 ;;
   let N3 := 1 + f4 in
   let N := N1 - (N2 * N3) + Date.day date - 30 in
   Ok N)%outcome.

(** What [valid_latitude] and [valid_longitude] let through. *)
Definition valid_latitude (latitude_float : float) : bool :=
  (latitude_float <=? 90.0)%float && (-90.0 <=? latitude_float)%float.
Definition valid_longitude (longitude_float : float) : bool :=
  (longitude_float <=? 180.0)%float && (-180.0 <=? longitude_float)%float.

Section Calc.

Variable m : libm.

(** The degree-based wrappers [ss_sin] ... [ss_atan]. *)
Definition ss_sin (angle_360 : float) : outcome float :=
  math_sin m (math_radians angle_360).
Definition ss_cos (angle_360 : float) : outcome float :=
  math_cos m (math_radians angle_360).
Definition ss_tan (angle_360 : float) : outcome float :=
  math_tan m (math_radians angle_360).

Definition ss_asin (ss_sine : float) : outcome float :=
  (r <~ math_asin m ss_sine ;; Ok (math_degrees r))%outcome.
Definition ss_acos (ss_cosine : float) : outcome float :=
  (r <~ math_acos m ss_cosine ;; Ok (math_degrees r))%outcome.
Definition ss_atan (ss_tangent : float) : outcome float :=
  (r <~ math_atan m ss_tangent ;; Ok (math_degrees r))%outcome.

(** [location.ss_calc(date, zenith, rising)] *)
Definition ss_calc (self : location) (date : Date.t) (zenith : string)
    (rising : bool) : py Datetime.t :=
  let say := message (base self) in
  (* Convert zenith *)
  let zz :=
    if (zenith =? "official")%string then (zenith, 90.0 + (50.0 / 60.0))%float
    else if (zenith =? "civil")%string then (zenith, 96.0%float)
    else if (zenith =? "nautical")%string then (zenith, 102.0%float)
    else if (zenith =? "astronomical")%string then (zenith, 108.0%float)
    else ("default (official)", 90.00 + (50.0 / 60.0))%float in
  let zenith := fst zz in
  let zenith_deg := snd zz in
  say 2 (Fmt "Using zenith - %s = %.3f deg" [AStr zenith; AFloat zenith_deg]) "ss_calc" ;;
  let rising_setting := if rising then "rising" else "setting" in
  (* 1. day of the year *)
  N <- lift (day_of_year date) ;;
  say 2 (Fmt "Day of the year is %s" [AInt N]) "ss_calc" ;;
  (* 2. longitude as an hour value, approximate time *)
  let lngHour := (longitude self / 15)%float in
  let t :=
    if rising then (Float.of_Z N + ((6 - lngHour) / 24))%float
    else (Float.of_Z N + ((18 - lngHour) / 24))%float in
  say 3 (Fmt "Longitude expressed in hours = %s" [AFloat lngHour]) "ss_calc" ;;
  say 3 (Fmt "Approximate time (%s) = %s" [AStr rising_setting; AFloat t]) "ss_calc" ;;
  (* 3. the Sun's mean anomaly *)
  let mean_anomaly := (((360 / 365.2596358) * t) - 3.289)%float in
  say 3 (Fmt "Sun's mean anomaly = %s" [AFloat mean_anomaly]) "ss_calc" ;;
  (* 4. the Sun's true longitude *)
  let eccentricity_amplitude := 1.916%float in
  let obliquity_amplitude := 0.020%float in
  s1 <- lift (ss_sin mean_anomaly) ;;
  s2 <- lift (ss_sin (2 * mean_anomaly)%float) ;;
  let sun_true_longitude :=
    (mean_anomaly + (eccentricity_amplitude * s1)
     + (obliquity_amplitude * s2) + 282.634)%float in
  let sun_true_longitude :=
    if (360.0 <? sun_true_longitude)%float then (sun_true_longitude - 360.0)%float
    else if (sun_true_longitude <? 0.0)%float then (sun_true_longitude + 360.0)%float
    else sun_true_longitude in
  say 3 (Fmt "Sun's true longitude (%s) = %s"
           [AStr rising_setting; AFloat sun_true_longitude]) "ss_calc" ;;
  (* 5a. the Sun's right ascension *)
  tanL <- lift (ss_tan sun_true_longitude) ;;
  right_ascension <- lift (ss_atan (0.91764 * tanL)%float) ;;
  let right_ascension :=
    if (360.0 <? right_ascension)%float then (right_ascension - 360.0)%float
    else if (right_ascension <? 0.0)%float then (right_ascension + 360.0)%float
    else right_ascension in
  say 3 (Fmt "Sun's right ascension before quadrant calculation (%s) = %s"
           [AStr rising_setting; AFloat right_ascension]) "ss_calc" ;;
  (* 5b. same quadrant as L *)
  fL <- lift (math_floor (sun_true_longitude / 90.0)%float) ;;
  let Lquadrant := (Float.of_Z fL * 90.0)%float in
  fRA <- lift (math_floor (right_ascension / 90.0)%float) ;;
  let RAquadrant := (Float.of_Z fRA * 90.0)%float in
  let right_ascension := (right_ascension + (Lquadrant - RAquadrant))%float in
  say 3 (Fmt "Sun's right ascension (%s) = %s"
           [AStr rising_setting; AFloat right_ascension]) "ss_calc" ;;
  (* 5c. into hours *)
  let right_ascension_hours := (right_ascension / 15.0)%float in
  say 3 (Fmt "Sun's right ascension in hours (%s) = %s"
           [AStr rising_setting; AFloat right_ascension_hours]) "ss_calc" ;;
  (* 6. the Sun's declination *)
  sinL <- lift (ss_sin sun_true_longitude) ;;
  let sinDec := (0.39782 * sinL)%float in
  dec <- lift (ss_asin sinDec) ;;
  cosDec <- lift (ss_cos dec) ;;
  say 3 (Fmt "Sun's declination (%s) = %s, %s"
           [AStr rising_setting; AFloat sinDec; AFloat cosDec]) "ss_calc" ;;
  (* 7a. the Sun's local hour angle *)
  cosZ <- lift (ss_cos zenith_deg) ;;
  sinLat <- lift (ss_sin (latitude self)) ;;
  cosLat <- lift (ss_cos (latitude self)) ;;
  cosH <- lift (float_truediv (cosZ - (sinDec * sinLat)) (cosDec * cosLat)) ;;
  say 3 (Fmt "Sun's local hour angle (%s) = %s"
           [AStr rising_setting; AFloat cosH]) "ss_calc" ;;
  (if (1.0 <? cosH)%float then
     say 1 (Fmt "The sun never rises on this location (on the specified date)." [])
       "ss_calc"
   else ret tt) ;;
  (if (cosH <? -1.0)%float then
     say 1 (Fmt "The sun never sets on this location (on the specified date)." [])
       "ss_calc"
   else ret tt) ;;
  (* 7b. H, in hours *)
  acosH <- lift (ss_acos cosH) ;;
  let hour_angle := if rising then (360 - acosH)%float else acosH in
  let hour := (hour_angle / 15.0)%float in
  say 3 (Fmt "Sun %s time (hours) = %s" [AStr rising_setting; AFloat hour]) "ss_calc" ;;
  (* 8. local mean time of rising/setting *)
  let local_mean_time :=
    (hour + right_ascension_hours - (0.06571 * t) - 6.622)%float in
  say 3 (Fmt "Local mean time (%s) = %s"
           [AStr rising_setting; AFloat local_mean_time]) "ss_calc" ;;
  (* 9. back to UTC *)
  let UTC := (local_mean_time - lngHour)%float in
  let UTC :=
    if (24.0 <? UTC)%float then (UTC - 24.0)%float
    else if (UTC <? 0.0)%float then (UTC + 24.0)%float
    else UTC in
  (if rising then say 3 (Fmt "Rising time (UTC) = %s" [AFloat UTC]) "ss_calc"
   else say 3 (Fmt "Setting time (UTC) = %s" [AFloat UTC]) "ss_calc") ;;
  (* 10. hours, minutes, seconds *)
  local_hour <- lift (int_of_float UTC) ;;
  let local_minute_dec := (UTC - Float.of_Z local_hour)%float in
  local_minute <- lift (int_of_float (local_minute_dec * 60.0)%float) ;;
  let local_second_dec :=
    (UTC - Float.of_Z local_hour - (Float.of_Z local_minute / 60.0))%float in
  local_second <- lift (int_of_float (local_second_dec * 3600.0)%float) ;;
  say 2 (Fmt "local_hour = %s, local_minute = %s, local_second = %s"
           [AInt local_hour; AInt local_minute; AInt local_second]) "ss_calc" ;;
  let year := Date.year date in
  let month := Date.month date in
  let day := Date.day date in
  lift (Datetime.new year month day local_hour local_minute local_second tzutc).

(** [location.sunrise(date, zenith)] *)
Definition sunrise (self : location) (date : Date.t) (zenith : string)
    : py Datetime.t :=
  message (base self) 1 (Fmt "sunrise method called" []) "sunrise" ;;
  sunrise_time <- ss_calc self date zenith true ;;
  message (base self) 1
    (Fmt "Sunrise is %i:%02i:%02i"
       [AInt (Datetime.hour sunrise_time); AInt (Datetime.minute sunrise_time);
        AInt (Datetime.second sunrise_time)]) "sunrise" ;;
  ret sunrise_time.

(** [location.sunset(date, zenith)] *)
Definition sunset (self : location) (date : Date.t) (zenith : string)
    : py Datetime.t :=
  message (base self) 1 (Fmt "sunset method called" []) "sunset" ;;
  sunset_time <- ss_calc self date zenith false ;;
  message (base self) 1
    (Fmt "Sunset is %i:%02i:%02i"
       [AInt (Datetime.hour sunset_time); AInt (Datetime.minute sunset_time);
        AInt (Datetime.second sunset_time)]) "sunset" ;;
  ret sunset_time.

End Calc.

(** * The scripts around the calculator

    What sunrise_sunset.py and winchester.py do outside [class location]:
    the validators argparse calls on the command line, the module-level
    [message], the two [main]s, and the two methods of [local_template]
    that [ss_calc] never calls.  A [main] is modelled from
    [args = vars(parser.parse_args())] on.  (The name a [location] prints
    for its class is the one of the imported module; nothing below depends
    on it.) *)

(** ** Python strings: [int(s)], slices, [lower], [re.sub], [basename] *)

Module PyStr.
Import Ascii.

(** The code point of a character; a [string] stands for the Python [str]
    with the same code points, all below 256. *)
Definition code (c : ascii) : Z := Z.of_N (N_of_ascii c).

(** The characters [int] skips around a number: the ASCII white space and,
    above 127, the two Unicode spaces NEL and NBSP. *)
Definition is_space (c : ascii) : bool :=
  let n := code c in
  ((9 <=? n) && (n <=? 13)) || (n =? 32) || (n =? 133) || (n =? 160).

Definition digit_of (c : ascii) : option Z :=
  let n := code c in
  if (48 <=? n) && (n <=? 57) then Some (n - 48) else None.

Fixpoint skip_space (s : string) : string :=
  match s with
  | String c s' => if is_space c then skip_space s' else s
  | EmptyString => s
  end.

(** Where the scan of the digits stands. *)
Inductive scan_state : Type :=
| NeedDigit      (* at the start, or after an underscore *)
| AfterDigit
| Trailing.      (* in the white space after the number *)

(** Digits, single underscores between them, then white space to the end:
    the value and the number of digits. *)
Fixpoint scan_int (st : scan_state) (s : string) (acc digits : Z) : option (Z * Z) :=
  match s with
  | EmptyString =>
      match st with
      | NeedDigit => None
      | _ => Some (acc, digits)
      end
  | String c s' =>
      match st with
      | NeedDigit =>
          match digit_of c with
          | Some d => scan_int AfterDigit s' (10 * acc + d) (digits + 1)
          | None => None
          end
      | AfterDigit =>
          match digit_of c with
          | Some d => scan_int AfterDigit s' (10 * acc + d) (digits + 1)
          | None =>
              if Ascii.eqb c "_" then scan_int NeedDigit s' acc digits
              else if is_space c then scan_int Trailing s' acc digits
              else None
          end
      | Trailing => if is_space c then scan_int Trailing s' acc digits else None
      end
  end.

(** [sys.get_int_max_str_digits()], at its default. *)
Definition int_max_str_digits : Z := 4300.

(** [int(s)] *)
Definition int_of_str (s : string) : outcome Z :=
  let s := skip_space s in
  let '(negative, s) :=
    match s with
    | String c s' =>
        if Ascii.eqb c "-" then (true, s')
        else if Ascii.eqb c "+" then (false, s')
        else (false, s)
    | EmptyString => (false, s)
    end in
  match scan_int NeedDigit s 0 0 with
  | Some (v, digits) =>
      if int_max_str_digits <? digits then
        Raise (ValueError "Exceeds the limit (4300 digits) for integer string conversion")
      else Ok (if negative then - v else v)
  | None => Raise (ValueError "invalid literal for int() with base 10")
  end.

(** [s[i:j]] for [0 <= i <= j]. *)
Definition slice (i j : nat) (s : string) : string := substring i (j - i) s.

(** [s.lower()] *)
Definition lower_char (c : ascii) : ascii :=
  let n := code c in
  if ((65 <=? n) && (n <=? 90)) ||
     ((192 <=? n) && (n <=? 222) && negb (n =? 215))
  then ascii_of_N (Z.to_N (n + 32)) else c.

Fixpoint lower (s : string) : string :=
  match s with
  | String c s' => String (lower_char c) (lower s')
  | EmptyString => EmptyString
  end.

(** [re.sub(r'\n', '', s)] *)
Fixpoint strip_newlines (s : string) : string :=
  match s with
  | String c s' =>
      if Ascii.eqb c "010" then strip_newlines s' else String c (strip_newlines s')
  | EmptyString => EmptyString
  end.

(** [os.path.basename(p)] on POSIX: what follows the last slash. *)
Fixpoint basename_from (p last : string) : string :=
  match p with
  | String c p' =>
      if Ascii.eqb c "/" then basename_from p' p' else basename_from p' last
  | EmptyString => last
  end.
Definition basename (p : string) : string := basename_from p p.

(** The double quote and the newline: one-character strings. *)
Definition dq : string := String "034" EmptyString.
Definition newline : string := String "010" EmptyString.

Definition underscore : ascii := "_".
Definition space : ascii := " ".

End PyStr.

(** ** Exceptions and outcomes of the command-line layer *)

(** What this layer raises: a built-in exception of the calculator's
    model, or one of two more. *)
Inductive failure : Type :=
| Builtin (e : exn)
| ArgumentTypeError (msg : text)
| AttributeError (msg : string).

Inductive ending (A : Type) : Type :=
| Returns (a : A)
| Fails (f : failure).
Arguments Returns {A} a.
Arguments Fails {A} f.

Definition ending_of {A} (o : outcome A) : ending A :=
  match o with
  | Ok a => Returns a
  | Raise e => Fails (Builtin e)
  end.

Definition ending_then {A B} (x : ending A) (k : A -> ending B) : ending B :=
  match x with
  | Returns a => k a
  | Fails f => Fails f
  end.

Declare Scope ending_scope.
Delimit Scope ending_scope with ending.
Notation "x <~ o ;; k" := (ending_then o (fun x => k))
  (at level 61, o at next level, right associativity) : ending_scope.

(** ** [datetime.date] and [timedelta] *)

(** [datetime.date(year, month, day)] *)
Definition date_new (year month day : Z) : outcome Date.t :=
  if negb ((1 <=? year) && (year <=? 9999)) then
    Raise (ValueError "year is out of range")
  else if negb ((1 <=? month) && (month <=? 12)) then
    Raise (ValueError "month must be in 1..12")
  else if negb ((1 <=? day) && (day <=? Date.days_in_month year month)) then
    Raise (ValueError "day is out of range for month")
  else Ok (Date.make year month day).

(** [date.toordinal()]: the days before the year, the days before the
    month, the day. *)
Definition days_before_year (year : Z) : Z :=
  let y := year - 1 in
  y * 365 + y / 4 - y / 100 + y / 400.

Definition days_before_month (year month : Z) : Z :=
  fold_right Z.add 0
    (map (fun i => Date.days_in_month year (Z.of_nat i))
       (seq 1 (Z.to_nat (month - 1)))).

Definition toordinal (year month day : Z) : Z :=
  days_before_year year + days_before_month year month + day.

(** [datetime.timedelta], microseconds left at 0: [0 <= seconds < 86400]. *)
Record timedelta : Type := { td_days : Z; td_seconds : Z }.

(** [a - b] on two [datetime]s of the same zone. *)
Definition datetime_sub (a b : Datetime.t) : timedelta :=
  let day_of x := toordinal (Datetime.year x) (Datetime.month x) (Datetime.day x) in
  let second_of x :=
    Datetime.hour x * 3600 + Datetime.minute x * 60 + Datetime.second x in
  let total := (day_of a - day_of b) * 86400 + (second_of a - second_of b) in
  {| td_days := total / 86400; td_seconds := total mod 86400 |}.

(** ** The scripts: module globals, module-level [message], [main] *)

(** An argument of a [%]-formatted message of the scripts. *)
Inductive script_arg : Type :=
| SNone
| SBool (b : bool)
| SInt (z : Z)
| SFloat (x : float)
| SStr (s : string)
| SDate (d : Date.t)
| STimedelta (d : timedelta).

Record script_text : Type := SFmt { sfmt : string; sfmt_args : list script_arg }.

(** A line on standard output: one of a [location] object, one of the
    module-level [message] with its prefix, or a bare [print(msg)]. *)
Inductive output : Type :=
| FromClass (l : line)
| FromModule (elapsed : float) (module : string) (msg : script_text)
| Bare (msg : script_text).

(** The globals of the running script: [verbose], [start_time], [errors],
    and its [__name__]. *)
Record globals : Type := {
  g_verbose : Z;
  g_start_time : float;
  g_errors : Z;
  g_name : string
}.

(** The state a script runs in: the clock, the output, the globals. *)
Record shell : Type := {
  sh_wall : nat -> float;
  sh_ticks : nat;
  sh_out : list output;
  sh_globals : globals
}.

Definition sh (A : Type) : Type := shell -> ending A * shell.

Definition sh_ret {A} (a : A) : sh A := fun s => (Returns a, s).

Definition sh_bind {A B} (c : sh A) (k : A -> sh B) : sh B :=
  fun s =>
    match c s with
    | (Returns a, s') => k a s'
    | (Fails f, s') => (Fails f, s')
    end.

Declare Scope sh_scope.
Delimit Scope sh_scope with sh.
Notation "x <- c ;; k" := (sh_bind c (fun x => k))
  (at level 61, c at next level, right associativity) : sh_scope.
Notation "c ;; k" := (sh_bind c (fun _ => k))
  (at level 61, right associativity) : sh_scope.

(** A method of a [location] run from a script: it reads the same clock
    and its lines go to the same output. *)
Definition call {A} (c : py A) : sh A :=
  fun s =>
    let '(o, w) := c {| wall := sh_wall s; ticks := sh_ticks s; stdout := [] |} in
    (ending_of o,
     {| sh_wall := sh_wall s; sh_ticks := ticks w;
        sh_out := (sh_out s ++ map FromClass (stdout w))%list;
        sh_globals := sh_globals s |}).

Definition get_verbose : sh Z := fun s => (Returns (g_verbose (sh_globals s)), s).

(** [global verbose; verbose = v] *)
Definition set_global_verbose (v : Z) : sh unit :=
  fun s =>
    (Returns tt,
     {| sh_wall := sh_wall s; sh_ticks := sh_ticks s; sh_out := sh_out s;
        sh_globals := {| g_verbose := v;
                         g_start_time := g_start_time (sh_globals s);
                         g_errors := g_errors (sh_globals s);
                         g_name := g_name (sh_globals s) |} |}).

Definition emit (o : output) : sh unit :=
  fun s =>
    (Returns tt,
     {| sh_wall := sh_wall s; sh_ticks := sh_ticks s;
        sh_out := (sh_out s ++ [o])%list; sh_globals := sh_globals s |}).

Definition sh_time : sh float :=
  fun s =>
    (Returns (sh_wall s (sh_ticks s)),
     {| sh_wall := sh_wall s; sh_ticks := S (sh_ticks s);
        sh_out := sh_out s; sh_globals := sh_globals s |}).

Local Open Scope sh_scope.

(** ** The module-level functions of the scripts *)

(** [message], [is_number], [is_integer] and [valid_date] stand in both
    scripts with the same text; the two coordinate validators are those of
    sunrise_sunset.py. *)
Module Script.

(** The module-level [message(verbosity, msg)]; [module] is never passed,
    so it is [__name__]. *)
Definition message (verbosity : Z) (msg : script_text) : sh unit :=
  fun s =>
    let g := sh_globals s in
    (if (verbosity =? 0) && (g_verbose g =? 0) then emit (Bare msg)
     else if verbosity <=? g_verbose g then
       now <- sh_time ;;
       emit (FromModule (now - g_start_time g)%float (g_name g) msg)
     else sh_ret tt) s.


(** [is_integer(s)] on a string. *)
Definition is_integer (s : string) : ending bool :=
  match PyStr.int_of_str s with
  | Ok _ => Returns true
  | Raise (ValueError _) => Returns false
  | Raise e => Fails (Builtin e)
  end.

(** [valid_date(date_str)] *)
Definition valid_date (date_str : string) : ending Date.t :=
  (if negb (Nat.eqb (String.length date_str) 8) then
     Fails (ArgumentTypeError
              (Fmt ("valid_date - Error validating date. Wrong number of characters. Date="
                    ++ PyStr.dq ++ "%s" ++ PyStr.dq) [AStr date_str]))
   else
     ok <~ is_integer date_str ;;
     if negb ok then
       Fails (ArgumentTypeError
                (Fmt ("valid_date - Error validating date. Format not YYYYMMDD Date="
                      ++ PyStr.dq ++ "%s" ++ PyStr.dq) [AStr date_str]))
     else
       year <~ ending_of (PyStr.int_of_str (PyStr.slice 0 4 date_str)) ;;
       month <~ ending_of (PyStr.int_of_str (PyStr.slice 4 6 date_str)) ;;
       day <~ ending_of (PyStr.int_of_str (PyStr.slice 6 8 date_str)) ;;
       match date_new year month day with
       | Ok date_obj => Returns date_obj
       | Raise (ValueError _) =>
           Fails (ArgumentTypeError
                    (Fmt "valid_date - Error validating date. Value error. Year = '%s', Month = '%s', Day = '%s'"
                       [AInt year; AInt month; AInt day]))
       | Raise e => Fails (Builtin e)
       end)%ending.

Section Validators.

(** [float(s)] on a string: the float, or [None] for its [ValueError]. *)
Variable float_of_str : string -> option float.

(** [is_number(s)] on a string. *)
Definition is_number (s : string) : bool :=
  match float_of_str s with
  | Some _ => true
  | None => false
  end.

(** [float(s)] once [is_number(s)] has passed. *)
Definition float_of (s : string) : outcome float :=
  match float_of_str s with
  | Some x => Ok x
  | None => Raise (ValueError "could not convert string to float")
  end.

(** The module-level [valid_latitude(latitude)] *)
Definition valid_latitude (latitude : string) : ending float :=
  if negb (is_number latitude) then
    Fails (ArgumentTypeError
             (Fmt "valid_latitude - Error validating latitude. Latitude must be a number." []))
  else
    (latitude_float <~ ending_of (float_of latitude) ;;
     if negb ((latitude_float <=? 90.0)%float && (-90.0 <=? latitude_float)%float) then
       Fails (ArgumentTypeError
                (Fmt "valid_latitude - Error validating latitude. Latitude is a given as an angle that ranges from -90deg at the south pole to 90deg at the north pole, with 0deg at the Equator." []))
     else Returns latitude_float)%ending.

(** The module-level [valid_longitude(longitude)] *)
Definition valid_longitude (longitude : string) : ending float :=
  if negb (is_number longitude) then
    Fails (ArgumentTypeError
             (Fmt "valid_longitude - Error validating longitude. longitude must be a number." []))
  else
    (longitude_float <~ ending_of (float_of longitude) ;;
     if negb ((longitude_float <=? 180.0)%float && (-180.0 <=? longitude_float)%float) then
       Fails (ArgumentTypeError
                (Fmt "valid_longitude - Error validating longitude. longitude is a given as an angle which is positive for East and negative for West." []))
     else Returns longitude_float)%ending.

End Validators.

End Script.

(** What [main] reads from the interpreter and the system. *)
Record environment : Type := {
  argv0 : string;             (* sys.argv[0] *)
  platform : string;          (* sys.platform *)
  version : string;           (* sys.version *)
  started : string;           (* time.strftime("%a, %d %b %Y %H:%M:%S") *)
  today : Date.t              (* datetime.date.today() *)
}.

(** The messages both [main]s print once the options are read. *)
Definition banner (env : environment) (doc : string) : sh unit :=
  let this_script := PyStr.basename (argv0 env) in
  Script.message 1 (SFmt "%s" [SStr (PyStr.strip_newlines doc)]) ;;
  Script.message 1 (SFmt "Started %s" [SStr (started env)]) ;;
  Script.message 1 (SFmt "Python interpreter running on %s"
               [SStr (PyStr.strip_newlines (platform env))]) ;;
  Script.message 1 (SFmt "Interpreter version = %s" [SStr (PyStr.strip_newlines (version env))]) ;;
  Script.message 1 (SFmt "Invoked via %s" [SStr (argv0 env)]) ;;
  (if (PyStr.slice 0 5 (PyStr.lower (platform env)) =? "linux")%string then
     Script.message 1 (SFmt "%s - Running on Linux." [SStr this_script])
   else sh_ret tt) ;;
  (if (PyStr.slice 0 6 (PyStr.lower (platform env)) =? "cygwin")%string then
     Script.message 1 (SFmt "%s - Running on Cygwin." [SStr this_script])
   else sh_ret tt) ;;
  v <- get_verbose ;;
  Script.message 1 (SFmt "%s - Verbose level = %s" [SStr this_script; SInt v]) ;;
  Script.message 1 (SFmt "%s - Initialisation complete." [SStr this_script]).

(** One turn of [for key in args.keys()]: the tests on the key that both
    scripts share. *)
Definition read_option (o : string) (a : script_arg) : sh unit :=
  (if (o =? "v")%string then
     match a with SInt v => set_global_verbose v | _ => sh_ret tt end
   else sh_ret tt) ;;
  (if (o =? "q")%string then set_global_verbose 0 else sh_ret tt) ;;
  (if (o =? "verbose")%string then
     match a with SInt v => set_global_verbose v | _ => sh_ret tt end
   else sh_ret tt) ;;
  Script.message 1 (SFmt "Option %s = %s" [SStr o; a]).

Fixpoint read_options (args : list (string * script_arg)) : sh unit :=
  match args with
  | (o, a) :: rest => read_option o a ;; read_options rest
  | [] => sh_ret tt
  end.

Definition of_option {A} (f : A -> script_arg) (x : option A) : script_arg :=
  match x with
  | Some a => f a
  | None => SNone
  end.

Module SunriseSunset.

(** What [parser.parse_args()] hands back, by destination. *)
Record namespace : Type := {
  verbose : Z;
  Latitude : option float;
  Longitude : option float;
  opt_test : bool;
  Date : option Date.t;
  Zenith : string
}.

(** [vars(args)]: the destinations in the order the parser declares them. *)
Definition vars (args : namespace) : list (string * script_arg) :=
  [("verbose", SInt (verbose args));
   ("Latitude", of_option SFloat (Latitude args));
   ("Longitude", of_option SFloat (Longitude args));
   ("opt_test", SBool (opt_test args));
   ("Date", of_option SDate (Date args));
   ("Zenith", SStr (Zenith args))].

(** [not x] for a float or [None]. *)
Definition falsy (x : option float) : bool :=
  match x with
  | Some f => (f =? 0)%float
  | None => true
  end.

Definition to_pyval (x : option float) : pyval :=
  match x with
  | Some f => PyFloat f
  | None => PyNone
  end.

(** [__doc__]: the first string of the file, with its newline. *)
Definition doc : string := "sunrise_sunset Version 1.2.1" ++ PyStr.newline.

Section Main.

Variable m : libm.
Variable env : environment.
(** [runner.run(suite())], which is not modelled. *)
Variable run_tests : sh unit.

(** [main()] of sunrise_sunset.py, from [args = vars(parser.parse_args())] on. *)
Definition main (args : namespace) : sh Z :=
  read_options (vars args) ;;
  banner env doc ;;
  if opt_test args then
    v <- get_verbose ;;
    (if v =? 0 then set_global_verbose 1 else sh_ret tt) ;;
    Script.message 1 (SFmt "running tests" []) ;;
    run_tests ;;
    Script.message 1 (SFmt "Finished!" []) ;;
    fun s => (Returns (g_errors (sh_globals s)), s)
  else
    let work (date_given : Date.t) : sh Z :=
      v <- get_verbose ;;
      new_place <- call (location_init (to_pyval (Latitude args))
                           (to_pyval (Longitude args)) v) ;;
      sun_rise <- call (sunrise m new_place date_given (Zenith args)) ;;
      sun_set <- call (sunset m new_place date_given (Zenith args)) ;;
      Script.message 1 (SFmt "Finished!" []) ;;
      fun s => (Returns (g_errors (sh_globals s)), s) in
    match Date args with
    | None => work (today env)
    | Some date_given =>
        if falsy (Latitude args) then
          Script.message 0 (SFmt "Latitude is required" []) ;; sh_ret 4
        else if falsy (Longitude args) then
          Script.message 0 (SFmt "Longitude is required" []) ;; sh_ret 4
        else work date_given
    end.

End Main.

End SunriseSunset.

Module Winchester.

Record namespace : Type := {
  verbose : Z;
  Date : option Date.t;
  Zenith : string
}.

Definition vars (args : namespace) : list (string * script_arg) :=
  [("verbose", SInt (verbose args));
   ("Date", of_option SDate (Date args));
   ("Zenith", SStr (Zenith args))].

(** [__doc__]: the first string of the file, with its newline. *)
Definition doc : string := "winchester Version 1.0.0" ++ PyStr.newline.

Section Main.

Variable m : libm.
Variable env : environment.

(** [main()] of winchester.py, from [args = vars(parser.parse_args())] on. *)
Definition main (args : namespace) : sh Z :=
  read_options (vars args) ;;
  banner env doc ;;
  let winchester_latitude := 51.0632%float in
  let winchester_longitude := (-1.308)%float in
  let date_given := match Date args with Some d => d | None => today env end in
  let today := match Date args with Some _ => false | None => true end in
  v <- get_verbose ;;
  let ss_verbose := if v - 1 <? 0 then 0 else v - 1 in
  winchester_location <-
    call (location_init (PyFloat winchester_latitude) (PyFloat winchester_longitude)
            ss_verbose) ;;
  sunrise <- call (sunrise m winchester_location date_given (Zenith args)) ;;
  sunset <- call (sunset m winchester_location date_given (Zenith args)) ;;
  let day_length := datetime_sub sunset sunrise in
  (if today then
     Script.message 0 (SFmt "Sunrise in Winchester (UK) today is %i:%02i:%02i"
                  [SInt (Datetime.hour sunrise); SInt (Datetime.minute sunrise);
                   SInt (Datetime.second sunrise)]) ;;
     Script.message 0 (SFmt "Sunset in Winchester (UK) today is %i:%02i:%02i"
                  [SInt (Datetime.hour sunset); SInt (Datetime.minute sunset);
                   SInt (Datetime.second sunset)]) ;;
     Script.message 0 (SFmt "Day length in Winchester (UK) today is %s"
                  [STimedelta day_length])
   else
     Script.message 0 (SFmt "Sunrise in Winchester (UK) on %i-%02i-%02i is %i:%02i:%02i"
                  [SInt (Datetime.year sunrise); SInt (Datetime.month sunrise);
                   SInt (Datetime.day sunrise); SInt (Datetime.hour sunrise);
                   SInt (Datetime.minute sunrise); SInt (Datetime.second sunrise)]) ;;
     Script.message 0 (SFmt "Sunset in Winchester (UK) on %i-%02i-%02i is %i:%02i:%02i"
                  [SInt (Datetime.year sunset); SInt (Datetime.month sunset);
                   SInt (Datetime.day sunset); SInt (Datetime.hour sunset);
                   SInt (Datetime.minute sunset); SInt (Datetime.second sunset)]) ;;
     Script.message 0 (SFmt "Day length in Winchester (UK) on %i-%02i-%02i is %s"
                  [SInt (Datetime.year sunset); SInt (Datetime.month sunset);
                   SInt (Datetime.day sunset); STimedelta day_length])) ;;
  Script.message 1 (SFmt "Finished!" []) ;;
  fun s => (Returns (g_errors (sh_globals s)), s).

End Main.

End Winchester.

(** ** [push_verbose] and [pop_verbose] *)

(** An object as these two methods find it: the attributes [__init__]
    sets, and [verbose_stack], which no method of either class assigns; it
    is there only when a caller has put it there. *)
Record instance : Type := {
  attrs : local_template;
  verbose_stack : option (list Z)
}.

(** An object as [__init__] leaves it. *)
Definition constructed (self : local_template) : instance :=
  {| attrs := self; verbose_stack := None |}.

(** The error of reading an attribute the object does not have. *)
Definition no_attribute (self : local_template) (name : string) : failure :=
  AttributeError
    ("'" ++ typename self ++ "' object has no attribute '" ++ name ++ "'").

(** [self.set_verbose(verbosity)] on such an object. *)
Definition set_verbose_of (self : instance) (verbosity : Z)
    : world -> ending (Z * instance) * world :=
  fun w =>
    let '(o, w') := set_verbose (attrs self) verbosity w in
    (match o with
     | Ok (old_verbosity, a) =>
         Returns (old_verbosity,
                  {| attrs := a; verbose_stack := verbose_stack self |})
     | Raise e => Fails (Builtin e)
     end, w').

(** [local_template.push_verbose] *)
Definition push_verbose (self : instance) (verbosity : Z)
    : world -> ending (Z * instance) * world :=
  match verbose_stack self with
  | None => fun w => (Fails (no_attribute (attrs self) "verbose_stack"), w)
  | Some stack =>
      let self := {| attrs := attrs self;
                     verbose_stack := Some (stack ++ [verbose (attrs self)])%list |} in
      set_verbose_of self verbosity
  end.

(** [local_template.pop_verbose] *)
Definition pop_verbose (self : instance)
    : world -> ending (Z * instance) * world :=
  match verbose_stack self with
  | None => fun w => (Fails (no_attribute (attrs self) "verbose_stack"), w)
  | Some stack =>
      if 0 <? Z.of_nat (List.length stack) then
        let verbosity := last stack 0 in
        let self := {| attrs := attrs self;
                       verbose_stack := Some (removelast stack) |} in
        set_verbose_of self verbosity
      else set_verbose_of self 0
  end.

Local Close Scope sh_scope.

(** * Statements and proofs *)

(** ** Definitions the statements use *)

(** The day of the year as the specification words it, over the integers:
    every [floor (a / b)] is the integer quotient rounded down. *)
Definition day_of_year_spec (year month day : Z) : Z :=
  let N1 := 275 * month / 9 in
  let N2 := (month + 9) / 12 in
  let N3 := 1 + (year - 4 * (year / 4) + 2) / 3 in
  N1 - N2 * N3 + day - 30.

(** [math.floor(a / b)] on two ints. *)
Definition floor_truediv (a b : Z) : outcome Z :=
  (q <~ int_truediv a b ;; math_floor q)%outcome.

Definition floor_truediv_exact (b a : Z) : bool :=
  match floor_truediv a b with
  | Ok f => f =? a / b
  | Raise _ => false
  end.

(** The integers of [[lo, hi)], in order. *)
Definition upto (lo hi : Z) : list Z :=
  map (fun i => lo + Z.of_nat i) (seq 0 (Z.to_nat (hi - lo))).


(** ** Fixtures for the statements below *)

(** A [location] as [location(latitude, longitude)] leaves it when the
    clock reads 0: the default verbosity 1. *)
Definition location_at (latitude longitude : float) : location :=
  {| base := {| verbose := 1; start_time := 0;
                typename := "location";
                classname := "sunrise_sunset.location" |};
     latitude := latitude; longitude := longitude;
     zenith := ["official"] |}.

(** The same place, printing every message (verbosity 3). *)
Definition verbose_location_at (latitude longitude : float) : location :=
  {| base := {| verbose := 3; start_time := 0;
                typename := "location";
                classname := "sunrise_sunset.location" |};
     latitude := latitude; longitude := longitude;
     zenith := ["official"] |}.

(** A world whose clock stands at 0 and where nothing was printed yet. *)
Definition quiet_world : world :=
  {| wall := fun _ => 0%float; ticks := 0; stdout := [] |}.


Definition is_float (v : pyval) : bool :=
  match v with
  | PyFloat _ => true
  | _ => false
  end.

(** Two computations return the same outcome in whatever worlds they run. *)
Definition agree {A} (c1 c2 : py A) : Prop :=
  forall w1 w2, fst (c1 w1) = fst (c2 w2).

(** Every value [c] returns satisfies [Q]. *)
Definition returns {A} (c : py A) (Q : A -> Prop) : Prop :=
  forall w a w', c w = (Ok a, w') -> Q a.




(** The outcome of [ss_calc] with the reference C library, for the place
    [(latitude, longitude)] in a quiet world. *)
Definition compute (latitude longitude : float) (date : Date.t)
    (zenith : string) (rising : bool) : outcome Datetime.t :=
  fst (ss_calc Libm.reference (location_at latitude longitude) date zenith rising
         quiet_world).

(** What a call at verbosity 3 prints: the arguments of each message. *)
Definition trace (latitude longitude : float) (date : Date.t)
    (zenith : string) (rising : bool) : list (list fmt_arg) :=
  map (fun l => fmt_args (ln_msg l))
    (stdout (snd (ss_calc Libm.reference (verbose_location_at latitude longitude)
                    date zenith rising quiet_world))).




(** The two announcements of a polar night or a polar day. *)
Definition polar_text (f : string) : bool :=
  ((f =? "The sun never rises on this location (on the specified date).") ||
   (f =? "The sun never sets on this location (on the specified date)."))%string.

Definition polar (l : line) : bool := polar_text (fmt (ln_msg l)).

(** What was printed between the worlds [w] and [w']. *)
Definition printed (w w' : world) : list line :=
  skipn (List.length (stdout w)) (stdout w').

(** Since [w0], nothing polar was printed. *)
Definition clean (w0 w : world) : Prop :=
  exists ls, stdout w = (stdout w0 ++ ls)%list /\ existsb polar ls = false.

(** From a clean world [c] ends in a clean world, or raises the domain
    error of [math]. *)
Definition cautious {A} (w0 : world) (c : py A) : Prop :=
  forall w, clean w0 w ->
    clean w0 (snd (c w)) \/ fst (c w) = Raise (ValueError "math domain error").

(** A computation that raises [e] in every world. *)
Definition raises {A} (c : py A) (e : exn) : Prop :=
  forall w, fst (c w) = Raise e.

(** ** Definitions the statements on the scripts use *)

(** Every character of [s] is one of [0] ... [9]. *)
Fixpoint all_digits (s : string) : bool :=
  match s with
  | String c s' =>
      match PyStr.digit_of c with
      | Some _ => all_digits s'
      | None => false
      end
  | EmptyString => true
  end.

(** The number a string of digits spells, after the digits [acc]. *)
Fixpoint digits_value (s : string) (acc : Z) : Z :=
  match s with
  | String c s' =>
      match PyStr.digit_of c with
      | Some d => digits_value s' (10 * acc + d)
      | None => acc
      end
  | EmptyString => acc
  end.

Definition number (s : string) : Z := digits_value s 0.

(** The character of a digit, and a number spelled with [width] digits. *)
Definition digit_char (d : Z) : Ascii.ascii := Ascii.ascii_of_N (Z.to_N (48 + d)).

Fixpoint decimal (width : nat) (n : Z) : string :=
  match width with
  | O => EmptyString
  | S width' => decimal width' (n / 10) ++ String (digit_char (n mod 10)) EmptyString
  end.

(** A date spelled YYYYMMDD, each field padded with zeros. *)
Definition yyyymmdd (d : Date.t) : string :=
  decimal 4 (Date.year d) ++ decimal 2 (Date.month d) ++ decimal 2 (Date.day d).

(** [c] leaves the world as it found it: nothing printed, clock not read. *)
Definition inert {A} (c : py A) : Prop := forall w, snd (c w) = w.

(** The lines of [location] objects among the output. *)
Fixpoint class_lines (out : list output) : list line :=
  match out with
  | FromClass l :: rest => l :: class_lines rest
  | _ :: rest => class_lines rest
  | [] => []
  end.

(** What a line of the module-level [message] says. *)
Definition said (o : output) : option script_text :=
  match o with
  | FromClass _ => None
  | FromModule _ _ msg => Some msg
  | Bare msg => Some msg
  end.

(** [c] returns normally, leaves the globals alone and prints no line of a
    [location] object. *)
Definition chatter (c : sh unit) : Prop :=
  forall s, exists s',
    c s = (Returns tt, s') /\
    sh_globals s' = sh_globals s /\
    class_lines (sh_out s') = class_lines (sh_out s).

(** The outcome of [ss_calc] at a place: it depends on nothing else. *)
Definition outcome_at (m : libm) (latitude longitude : float) (date : Date.t)
    (zenith : string) (rising : bool) : outcome Datetime.t :=
  fst (ss_calc m (location_at latitude longitude) date zenith rising quiet_world).

(** The state once the options of a quiet run are read. *)
Definition hushed (s : shell) : shell :=
  {| sh_wall := sh_wall s; sh_ticks := sh_ticks s; sh_out := sh_out s;
     sh_globals := {| g_verbose := 0;
                      g_start_time := g_start_time (sh_globals s);
                      g_errors := g_errors (sh_globals s);
                      g_name := g_name (sh_globals s) |} |}.

(** The three lines winchester.py reports. *)
Definition winchester_report (today : bool) (sunrise sunset : Datetime.t)
    : list script_text :=
  let day_length := datetime_sub sunset sunrise in
  if today then
    [SFmt "Sunrise in Winchester (UK) today is %i:%02i:%02i"
       [SInt (Datetime.hour sunrise); SInt (Datetime.minute sunrise);
        SInt (Datetime.second sunrise)];
     SFmt "Sunset in Winchester (UK) today is %i:%02i:%02i"
       [SInt (Datetime.hour sunset); SInt (Datetime.minute sunset);
        SInt (Datetime.second sunset)];
     SFmt "Day length in Winchester (UK) today is %s" [STimedelta day_length]]
  else
    [SFmt "Sunrise in Winchester (UK) on %i-%02i-%02i is %i:%02i:%02i"
       [SInt (Datetime.year sunrise); SInt (Datetime.month sunrise);
        SInt (Datetime.day sunrise); SInt (Datetime.hour sunrise);
        SInt (Datetime.minute sunrise); SInt (Datetime.second sunrise)];
     SFmt "Sunset in Winchester (UK) on %i-%02i-%02i is %i:%02i:%02i"
       [SInt (Datetime.year sunset); SInt (Datetime.month sunset);
        SInt (Datetime.day sunset); SInt (Datetime.hour sunset);
        SInt (Datetime.minute sunset); SInt (Datetime.second sunset)];
     SFmt "Day length in Winchester (UK) on %i-%02i-%02i is %s"
       [SInt (Datetime.year sunset); SInt (Datetime.month sunset);
        SInt (Datetime.day sunset); STimedelta day_length]].

(** [c] only adds lines to what was printed. *)
Definition appending {A} (c : py A) : Prop :=
  forall w, exists ls, stdout (snd (c w)) = (stdout w ++ ls)%list.

(** The second of the day of a timestamp. *)
Definition second_of_day (x : Datetime.t) : Z :=
  Datetime.hour x * 3600 + Datetime.minute x * 60 + Datetime.second x.

(** A date spelled with a three-digit year: YYYMMDD. *)
Definition yyymmdd (d : Date.t) : string :=
  decimal 3 (Date.year d) ++ decimal 2 (Date.month d) ++ decimal 2 (Date.day d).

(** A [location] made with [verbose=0], when the clock reads 0. *)
Definition quiet_location_at (latitude longitude : float) : location :=
  {| base := {| verbose := 0; start_time := 0;
                typename := "location";
                classname := "sunrise_sunset.location" |};
     latitude := latitude; longitude := longitude;
     zenith := ["official"] |}.

(** A run on Linux on 22 November 2022, and the state a script starts in:
    the clock at 0, nothing printed, the globals at their defaults. *)
Definition a_linux_run (script : string) : environment :=
  {| argv0 := script; platform := "linux"; version := "3.11.2";
     started := "Tue, 22 Nov 2022 12:00:00"; today := Date.make 2022 11 22 |}.

Definition at_start : shell :=
  {| sh_wall := fun _ => 0%float; sh_ticks := 0; sh_out := [];
     sh_globals := {| g_verbose := 1; g_start_time := 0; g_errors := 0;
                      g_name := "__main__" |} |}.

(** Command lines of sunrise_sunset.py: the equator on 22 November 2022;
    no argument at all; [-q] and the place of the unit tests; that place
    at the default verbosity. *)
Definition on_the_equator : SunriseSunset.namespace :=
  {| SunriseSunset.verbose := 1;
     SunriseSunset.Latitude := Some 0%float;
     SunriseSunset.Longitude := Some (-1.515)%float;
     SunriseSunset.opt_test := false;
     SunriseSunset.Date := Some (Date.make 2022 11 22);
     SunriseSunset.Zenith := "official" |}.

Definition no_arguments : SunriseSunset.namespace :=
  {| SunriseSunset.verbose := 1;
     SunriseSunset.Latitude := None;
     SunriseSunset.Longitude := None;
     SunriseSunset.opt_test := false;
     SunriseSunset.Date := None;
     SunriseSunset.Zenith := "official" |}.

Definition quietly : SunriseSunset.namespace :=
  {| SunriseSunset.verbose := 0;
     SunriseSunset.Latitude := Some 51.41416666%float;
     SunriseSunset.Longitude := Some (-1.515)%float;
     SunriseSunset.opt_test := false;
     SunriseSunset.Date := Some (Date.make 2022 11 22);
     SunriseSunset.Zenith := "official" |}.

Definition at_the_test_location : SunriseSunset.namespace :=
  {| SunriseSunset.verbose := 1;
     SunriseSunset.Latitude := Some 51.41416666%float;
     SunriseSunset.Longitude := Some (-1.515)%float;
     SunriseSunset.opt_test := false;
     SunriseSunset.Date := Some (Date.make 2022 11 22);
     SunriseSunset.Zenith := "official" |}.

(** winchester.py [-q --date 20221122]. *)
Definition winchester_quietly : Winchester.namespace :=
  {| Winchester.verbose := 0;
     Winchester.Date := Some (Date.make 2022 11 22);
     Winchester.Zenith := "official" |}.

(** [float(s)] on the two strings of the unit tests; no other string is
    needed. *)
Definition float_of_test_strings (s : string) : option float :=
  if (s =? "51.41416666")%string then Some 51.41416666%float
  else if (s =? "-1.515")%string then Some (-1.515)%float
  else None.

(** ** The day of the year *)

Lemma upto_complete lo hi z : lo <= z < hi -> In z (upto lo hi).
Proof.
  intros Hz. unfold upto. apply in_map_iff.
  exists (Z.to_nat (z - lo)). split; [lia|].
  apply in_seq. lia.
Qed.

Lemma forallb_upto (P : Z -> bool) lo hi :
  forallb P (upto lo hi) = true -> forall z, lo <= z < hi -> P z = true.
Proof.
  intros H z Hz. rewrite forallb_forall in H. apply H, upto_complete, Hz.
Qed.

Lemma floor_truediv_exact_ok a b :
  floor_truediv_exact b a = true -> floor_truediv a b = Ok (a / b).
Proof.
  unfold floor_truediv_exact. destruct (floor_truediv a b); [|discriminate].
  intros H. apply Z.eqb_eq in H. now subst.
Qed.

Lemma floor_year_div_4 y : 1 <= y <= 9999 -> floor_truediv y 4 = Ok (y / 4).
Proof.
  intros Hy. apply floor_truediv_exact_ok.
  apply (forallb_upto (floor_truediv_exact 4) 1 10000); [now vm_compute | lia].
Qed.

Lemma floor_truediv_on (g : Z -> Z) b lo hi :
  forallb (fun x => floor_truediv_exact b (g x)) (upto lo hi) = true ->
  forall x, lo <= x < hi -> floor_truediv (g x) b = Ok (g x / b).
Proof.
  intros H x Hx. apply floor_truediv_exact_ok.
  apply (forallb_upto _ lo hi H x Hx).
Qed.

Lemma day_of_year_unfold date :
  day_of_year date =
  (N1 <~ floor_truediv (275 * Date.month date) 9 ;;
   N2 <~ floor_truediv (Date.month date + 9) 12 ;;
   f3 <~ floor_truediv (Date.year date) 4 ;;
   f4 <~ floor_truediv (Date.year date - 4 * f3 + 2) 3 ;;
   Ok (N1 - N2 * (1 + f4) + Date.day date - 30))%outcome.
Proof.
  unfold day_of_year, floor_truediv.
  destruct (int_truediv (275 * Date.month date) 9) as [q1|]; cbn [and_then]; [|reflexivity].
  destruct (math_floor q1) as [N1|]; cbn [and_then]; [|reflexivity].
  destruct (int_truediv (Date.month date + 9) 12) as [q2|]; cbn [and_then]; [|reflexivity].
  destruct (math_floor q2) as [N2|]; cbn [and_then]; [|reflexivity].
  destruct (int_truediv (Date.year date) 4) as [q3|]; cbn [and_then]; [|reflexivity].
  destruct (math_floor q3) as [f3|]; cbn [and_then]; [|reflexivity].
  reflexivity.
Qed.

Lemma valid_date_bounds d :
  Date.valid d = true ->
  1 <= Date.year d <= 9999 /\ 1 <= Date.month d <= 12 /\
  1 <= Date.day d <= Date.days_in_month (Date.year d) (Date.month d).
Proof.
  unfold Date.valid. rewrite !andb_true_iff, !Z.leb_le. tauto.
Qed.

Lemma day_of_year_refines_spec d :
  Date.valid d = true ->
  day_of_year d = Ok (day_of_year_spec (Date.year d) (Date.month d) (Date.day d)).
Proof.
  intros Hv. apply valid_date_bounds in Hv. destruct Hv as (Hy & Hm & Hd).
  rewrite day_of_year_unfold.
  rewrite (floor_truediv_on (fun mo => 275 * mo) 9 1 13)
    by first [lia | now vm_compute].
  cbn [and_then].
  rewrite (floor_truediv_on (fun mo => mo + 9) 12 1 13)
    by first [lia | now vm_compute].
  cbn [and_then].
  rewrite floor_year_div_4 by lia. cbn [and_then].
  pose proof (Z.mod_pos_bound (Date.year d) 4).
  pose proof (Z.div_mod (Date.year d) 4).
  rewrite (floor_truediv_on (fun r => r) 3 2 6); [reflexivity | now vm_compute | lia].
Qed.

Lemma day_of_year_spec_range y mo d :
  1 <= mo <= 12 -> 1 <= d <= Date.days_in_month y mo ->
  1 <= day_of_year_spec y mo d <= 366 /\
  (day_of_year_spec y mo d = 366 <-> mo = 12 /\ d = 31 /\ y mod 4 = 0).
Proof.
  intros Hm Hd. unfold day_of_year_spec.
  assert (H3 : (y - 4 * (y / 4) + 2) / 3 = if y mod 4 =? 0 then 0 else 1).
  { pose proof (Z.mod_pos_bound y 4). pose proof (Z.div_mod y 4).
    replace (y - 4 * (y / 4) + 2) with (y mod 4 + 2) by lia.
    assert (Hc : y mod 4 = 0 \/ y mod 4 = 1 \/ y mod 4 = 2 \/ y mod 4 = 3) by lia.
    destruct Hc as [-> | [-> | [-> | ->]]]; reflexivity. }
  cbv zeta. rewrite H3.
  assert (Hc : mo = 1 \/ mo = 2 \/ mo = 3 \/ mo = 4 \/ mo = 5 \/ mo = 6 \/
               mo = 7 \/ mo = 8 \/ mo = 9 \/ mo = 10 \/ mo = 11 \/ mo = 12) by lia.
  unfold Date.days_in_month in Hd.
  destruct (Z.eqb_spec (y mod 4) 0) as [E|E];
    repeat (destruct Hc as [-> | Hc]); try subst mo;
    cbn [Z.eqb Pos.eqb orb] in Hd; try (destruct (Date.is_leap y));
    Z.div_mod_to_equations; lia.
Qed.

(** ** Outcomes do not depend on the world *)

Lemma agree_bind {A B} (c1 c2 : py A) (k1 k2 : A -> py B) :
  agree c1 c2 -> (forall a, agree (k1 a) (k2 a)) -> agree (bind c1 k1) (bind c2 k2).
Proof.
  intros Hc Hk w1 w2. unfold bind. specialize (Hc w1 w2).
  destruct (c1 w1) as [[a1|e1] w1'], (c2 w2) as [[a2|e2] w2'];
    cbn in Hc; try discriminate; injection Hc as ->; [apply Hk | reflexivity].
Qed.

Lemma agree_lift {A} (o : outcome A) : agree (lift o) (lift o).
Proof. intros w1 w2. reflexivity. Qed.

Lemma message_returns self verbosity msg method w :
  fst (message self verbosity msg method w) = Ok tt.
Proof.
  unfold message. destruct (verbosity <=? verbose self); reflexivity.
Qed.

Lemma agree_message s1 s2 v1 v2 t1 t2 m1 m2 :
  agree (message s1 v1 t1 m1) (message s2 v2 t2 m2).
Proof. intros w1 w2. now rewrite !message_returns. Qed.

Lemma agree_when (b : bool) s1 s2 v1 v2 t1 t2 m1 m2 :
  agree (if b then message s1 v1 t1 m1 else ret tt)
        (if b then message s2 v2 t2 m2 else ret tt).
Proof. destruct b; [apply agree_message | intros w1 w2; reflexivity]. Qed.

Lemma agree_either (b : bool) s1 s2 v1 v2 t1 t2 m1 m2 v1' v2' t1' t2' m1' m2' :
  agree (if b then message s1 v1 t1 m1 else message s1 v1' t1' m1')
        (if b then message s2 v2 t2 m2 else message s2 v2' t2' m2').
Proof. destruct b; apply agree_message. Qed.

Ltac agree_step :=
  first [ apply agree_bind;
          [ first [ apply agree_message | apply agree_lift
                  | apply agree_when | apply agree_either ]
          | intro ]
        | apply agree_lift ].

(** The outcome of [ss_calc] depends on the object only through its
    latitude and longitude, and not on the world. *)
Lemma ss_calc_agree m b1 b2 z1 z2 lat lon date zenith rising :
  agree (ss_calc m {| base := b1; latitude := lat; longitude := lon; zenith := z1 |}
           date zenith rising)
        (ss_calc m {| base := b2; latitude := lat; longitude := lon; zenith := z2 |}
           date zenith rising).
Proof.
  unfold ss_calc. cbv zeta. cbn [base latitude longitude].
  repeat agree_step.
Qed.

Lemma returns_bind {A B} (c : py A) (k : A -> py B) (Q : B -> Prop) :
  (forall a, returns (k a) Q) -> returns (bind c k) Q.
Proof.
  intros Hk w b w'. unfold bind.
  destruct (c w) as [[a|e] w1]; [apply Hk | discriminate].
Qed.

Lemma returns_lift {A} (o : outcome A) (Q : A -> Prop) :
  (forall a, o = Ok a -> Q a) -> returns (lift o) Q.
Proof.
  intros H w a w' E. unfold lift in E. injection E as E _. now apply H.
Qed.

(** What [datetime.datetime(...)] hands back is what it was given, and
    passed its range checks. *)
Lemma datetime_new_ok y mo d h mi s z ts :
  Datetime.new y mo d h mi s z = Ok ts ->
  ts = Datetime.make y mo d h mi s z /\
  0 <= h <= 23 /\ 0 <= mi <= 59 /\ 0 <= s <= 59.
Proof.
  unfold Datetime.new.
  repeat match goal with
         | |- context [if negb ?b then _ else _] =>
             let E := fresh "E" in destruct b eqn:E; cbn [negb]; [|discriminate]
         end.
  intros H. injection H as <-.
  rewrite !andb_true_iff, !Z.leb_le in *. repeat split; tauto.
Qed.

(** Whatever [ss_calc] returns carries the date it was given, the UTC zone,
    and a time of day within range. *)
Lemma ss_calc_returns m self date zenith rising :
  returns (ss_calc m self date zenith rising)
    (fun ts =>
       Datetime.year ts = Date.year date /\
       Datetime.month ts = Date.month date /\
       Datetime.day ts = Date.day date /\
       Datetime.tz ts = tzutc /\
       0 <= Datetime.hour ts <= 23 /\
       0 <= Datetime.minute ts <= 59 /\
       0 <= Datetime.second ts <= 59).
Proof.
  unfold ss_calc. cbv zeta.
  repeat (apply returns_bind; intro).
  apply returns_lift. intros ts E.
  apply datetime_new_ok in E. destruct E as (-> & Hh & Hm & Hs).
  cbn. repeat split; tauto.
Qed.


Lemma bind_ok {A B} (c : py A) (k : A -> py B) w a w1 :
  c w = (Ok a, w1) -> bind c k w = k a w1.
Proof. intros E. unfold bind. now rewrite E. Qed.

Lemma message_runs self verbosity msg method w :
  exists w', message self verbosity msg method w = (Ok tt, w').
Proof.
  unfold message. destruct (verbosity <=? verbose self); eexists; reflexivity.
Qed.

Lemma set_verbose_runs self verbosity w :
  exists w',
    set_verbose self verbosity w =
    (Ok (verbose self,
         {| verbose := verbosity; start_time := start_time self;
            typename := typename self; classname := classname self |}), w').
Proof.
  unfold set_verbose. cbv zeta. cbn [verbose].
  destruct (negb (verbose self =? verbosity) && (0 <? verbosity));
    eexists; reflexivity.
Qed.

(** The constructor up to its two assertions. *)
Lemma location_init_runs lat lon verbosity w :
  exists b w',
    verbose b = verbosity /\
    location_init lat lon verbosity w =
    (match lat with
     | PyFloat lat' =>
         match lon with
         | PyFloat lon' =>
             (Ok {| base := b; latitude := lat'; longitude := lon';
                    zenith := ["official"] |}, w')
         | _ => (Raise AssertionError, w')
         end
     | _ => (Raise AssertionError, w')
     end).
Proof.
  unfold location_init.
  rewrite (bind_ok local_template_init _ w _ _ eq_refl). cbv zeta.
  match goal with
  | |- context [bind (set_verbose ?s ?v) _ ?w1] =>
      destruct (set_verbose_runs s v w1) as [w2 E2];
      rewrite (bind_ok _ _ _ _ _ E2)
  end.
  cbn [snd].
  match goal with
  | |- context [bind (message ?s ?v ?t ?mt) _ ?w1] =>
      destruct (message_runs s v t mt w1) as [w3 E3];
      rewrite (bind_ok _ _ _ _ _ E3)
  end.
  exists {| verbose := verbosity; start_time := wall w (ticks w);
            typename := "location"; classname := "sunrise_sunset.location" |}, w3.
  split; [reflexivity|].
  destruct lat; try reflexivity. destruct lon; reflexivity.
Qed.

(** [ss_calc] with the reference library, on any object at a place and in
    any world, is [compute] at that place. *)
Lemma ss_calc_compute b z lat lon date zenith rising w :
  fst (ss_calc Libm.reference
         {| base := b; latitude := lat; longitude := lon; zenith := z |}
         date zenith rising w)
  = compute lat lon date zenith rising.
Proof. apply ss_calc_agree. Qed.

(** ** Order of timestamps *)







(** ** The announcement of a polar night or day *)

Lemma clean_refl w : clean w w.
Proof. exists []. split; [now rewrite app_nil_r | reflexivity]. Qed.

Lemma clean_printed w0 w : clean w0 w -> existsb polar (printed w0 w) = false.
Proof.
  intros (ls & E & H). unfold printed. rewrite E.
  rewrite skipn_app, skipn_all, Nat.sub_diag. exact H.
Qed.

Lemma cautious_bind {A B} w0 (c : py A) (k : A -> py B) :
  cautious w0 c -> (forall a, cautious w0 (k a)) -> cautious w0 (bind c k).
Proof.
  intros Hc Hk w Hw. unfold bind. specialize (Hc w Hw).
  destruct (c w) as [[a|e] w1]; cbn [fst snd] in *.
  - destruct Hc as [Hc|Hc]; [apply Hk, Hc | discriminate].
  - destruct Hc as [Hc|Hc]; [now left | right; congruence].
Qed.

Lemma cautious_lift {A} w0 (o : outcome A) : cautious w0 (lift o).
Proof. intros w Hw. left. exact Hw. Qed.

Lemma cautious_ret {A} w0 (a : A) : cautious w0 (ret a).
Proof. intros w Hw. left. exact Hw. Qed.

Lemma cautious_message w0 self verbosity f args method :
  polar_text f = false ->
  cautious w0 (message self verbosity (Fmt f args) method).
Proof.
  intros Hf w (ls & E & H). left. unfold message.
  destruct (verbosity <=? verbose self); [|now exists ls].
  cbn. eexists (ls ++ [_])%list. rewrite E, app_assoc. split; [reflexivity|].
  rewrite existsb_app, H. cbn. unfold polar. cbn. now rewrite Hf.
Qed.

Lemma cautious_either w0 (b : bool) self v1 f1 a1 m1 v2 f2 a2 m2 :
  polar_text f1 = false -> polar_text f2 = false ->
  cautious w0 (if b then message self v1 (Fmt f1 a1) m1
               else message self v2 (Fmt f2 a2) m2).
Proof. intros H1 H2. destruct b; now apply cautious_message. Qed.

Lemma raises_after_message {A} self v t mt (k : unit -> py A) e :
  raises (k tt) e -> raises (bind (message self v t mt) k) e.
Proof.
  intros H w. destruct (message_runs self v t mt w) as [w' E].
  rewrite (bind_ok _ _ _ _ _ E). apply H.
Qed.

Lemma raises_after_ret {A B} (a : A) (k : A -> py B) e :
  raises (k a) e -> raises (bind (ret a) k) e.
Proof. intros H w. apply H. Qed.

Lemma raises_lift {A B} (o : outcome A) (k : A -> py B) e :
  o = Raise e -> raises (bind (lift o) k) e.
Proof. intros -> w. reflexivity. Qed.

Lemma raises_cautious {A} w0 (c : py A) :
  raises c (ValueError "math domain error") -> cautious w0 c.
Proof. intros H w _. right. apply H. Qed.

Ltac cautious_step :=
  first [ apply cautious_bind;
          [ first [ apply cautious_message; reflexivity
                  | apply cautious_lift
                  | apply cautious_either; reflexivity ]
          | intro ]
        | apply cautious_lift ].

(** From its announcement of a polar night or day on, [ss_calc] can only
    end in the error of [math.acos]. *)
Lemma ss_calc_cautious m self date zenith rising w0 :
  (forall x, (1 <? x)%float || (x <? -1)%float = true ->
             math_acos m x = Raise (ValueError "math domain error")) ->
  cautious w0 (ss_calc m self date zenith rising).
Proof.
  intros Hacos. unfold ss_calc. cbv zeta.
  repeat cautious_step.
  match goal with
  | |- context [ss_acos m ?c] => rename c into cosH
  end.
  destruct ((1.0 <? cosH)%float || (cosH <? -1.0)%float) eqn:Hout.
  - apply raises_cautious.
    assert (Hr : ss_acos m cosH = Raise (ValueError "math domain error")).
    { unfold ss_acos. now rewrite (Hacos cosH Hout). }
    destruct (1.0 <? cosH)%float, (cosH <? -1.0)%float;
      repeat first [ apply raises_after_message | apply raises_after_ret ];
      now apply raises_lift.
  - apply orb_false_iff in Hout. destruct Hout as [-> ->].
    apply cautious_bind; [apply cautious_ret | intro].
    apply cautious_bind; [apply cautious_ret | intro].
    repeat cautious_step.
Qed.

(** Whenever [ss_calc] announces a polar night or day, it raises the
    [ValueError] of [math.acos]. *)
Lemma announced_then_raises m self date zenith rising w :
  (forall x, (1 <? x)%float || (x <? -1)%float = true ->
             math_acos m x = Raise (ValueError "math domain error")) ->
  existsb polar (printed w (snd (ss_calc m self date zenith rising w))) = true ->
  fst (ss_calc m self date zenith rising w) = Raise (ValueError "math domain error").
Proof.
  intros Hm Hp.
  destruct (ss_calc_cautious m self date zenith rising w Hm w (clean_refl w))
    as [Hc|Hr]; [|exact Hr].
  apply clean_printed in Hc. congruence.
Qed.

(** The reference [acos] has no value outside [-1, 1]. *)
Lemma SFcompare_finite_refl s mx e :
  SFcompare (S754_finite s mx e) (S754_finite s mx e) = Some Eq.
Proof.
  cbn. rewrite Z.compare_refl, Pos.compare_cont_refl. now destruct s.
Qed.

Lemma outside_domain x :
  (1 <? x)%float || (x <? -1)%float = true ->
  is_nan x = false /\ Libm.in_domain x = false.
Proof.
  unfold is_nan, Libm.in_domain.
  rewrite !ltb_spec, leb_spec, eqb_spec, abs_spec.
  change (Prim2SF 1) with (S754_finite false 4503599627370496 (-52)).
  change (Prim2SF (-1)) with (S754_finite true 4503599627370496 (-52)).
  destruct (Prim2SF x) as [s|s| |s mx e]; unfold SFltb, SFleb, SFeqb.
  - destruct s; discriminate.
  - destruct s; intros _; split; reflexivity.
  - discriminate.
  - rewrite SFcompare_finite_refl. cbn [negb SFabs].
    destruct s; cbn [SFcompare orb].
    + destruct (e ?= -52);
        [destruct (Pos.compare_cont Eq mx 4503599627370496)| |];
        cbn; intros H; try discriminate H; split; reflexivity.
    + rewrite (Z.compare_antisym e (-52)).
      change (Pos.compare_cont Eq 4503599627370496 mx)
        with (Pos.compare_cont (CompOpp Eq) 4503599627370496 mx).
      rewrite <- (Pos.compare_cont_antisym mx 4503599627370496 Eq).
      destruct (e ?= -52);
        [destruct (Pos.compare_cont Eq mx 4503599627370496)| |];
        cbn; intros H; try discriminate H; split; reflexivity.
Qed.

Lemma reference_acos_domain x :
  (1 <? x)%float || (x <? -1)%float = true ->
  math_acos Libm.reference x = Raise (ValueError "math domain error").
Proof.
  intros H. apply outside_domain in H. destruct H as [Hn Hd].
  unfold math_acos, math_1. cbn [c_acos Libm.reference].
  unfold Libm.acos. rewrite Hd, Hn. reflexivity.
Qed.

(** Closed goals about concrete inputs: split the conjunctions, evaluate. *)
Ltac evaluate :=
  repeat match goal with |- _ /\ _ => split end;
  vm_compute; reflexivity.

(** [location_at] is what the constructor builds in a quiet world. *)
Lemma location_at_constructed lat lon :
  fst (location_init (PyFloat lat) (PyFloat lon) 1 quiet_world)
  = Ok (location_at lat lon).
Proof. reflexivity. Qed.

(** [sunrise] and [sunset] return what [ss_calc] returns. *)
Lemma sunrise_agree m self date zenith :
  agree (sunrise m self date zenith) (ss_calc m self date zenith true).
Proof.
  intros w1 w2. unfold sunrise. destruct self as [b lat lon z].
  match goal with
  | |- context [bind (message ?s ?v ?t ?mt) _ w1] =>
      destruct (message_runs s v t mt w1) as [w1' E1];
      rewrite (bind_ok _ _ _ _ _ E1)
  end.
  pose proof (ss_calc_agree m b b z z lat lon date zenith true w1' w2) as H.
  unfold bind at 1.
  destruct (ss_calc m _ date zenith true w1') as [[ts|e] w3];
    cbn [fst] in H; rewrite <- H; [|reflexivity].
  match goal with
  | |- context [bind (message ?s ?v ?t ?mt) _ w3] =>
      destruct (message_runs s v t mt w3) as [w3' E3];
      rewrite (bind_ok _ _ _ _ _ E3)
  end.
  reflexivity.
Qed.

Lemma sunset_agree m self date zenith :
  agree (sunset m self date zenith) (ss_calc m self date zenith false).
Proof.
  intros w1 w2. unfold sunset. destruct self as [b lat lon z].
  match goal with
  | |- context [bind (message ?s ?v ?t ?mt) _ w1] =>
      destruct (message_runs s v t mt w1) as [w1' E1];
      rewrite (bind_ok _ _ _ _ _ E1)
  end.
  pose proof (ss_calc_agree m b b z z lat lon date zenith false w1' w2) as H.
  unfold bind at 1.
  destruct (ss_calc m _ date zenith false w1') as [[ts|e] w3];
    cbn [fst] in H; rewrite <- H; [|reflexivity].
  match goal with
  | |- context [bind (message ?s ?v ?t ?mt) _ w3] =>
      destruct (message_runs s v t mt w3) as [w3' E3];
      rewrite (bind_ok _ _ _ _ _ E3)
  end.
  reflexivity.
Qed.

(** ** The claims *)

(** C1.  At latitude 78 N on 21 December 2022 (and, for the polar day, on
    21 June 2022) with the Official zenith, [ss_calc] announces that the sun
    never rises (never sets), hands the out-of-range cosine 1.96 (-2.12) to
    [math.acos] all the same, and ends in the [ValueError] that call raises,
    for rising and for setting: no typed polar-night or polar-day error is
    produced. *)
Theorem polar_night_raises_ValueError :
  (forall b z rising w,
     fst (ss_calc Libm.reference
            {| base := b; latitude := 78.0; longitude := 15.0; zenith := z |}
            (Date.make 2022 12 21) "official" rising w)
     = Raise (ValueError "math domain error")) /\
  (forall b z rising w,
     fst (ss_calc Libm.reference
            {| base := b; latitude := 78.0; longitude := 15.0; zenith := z |}
            (Date.make 2022 6 21) "official" rising w)
     = Raise (ValueError "math domain error")) /\
  map ln_msg
    (stdout (snd (ss_calc Libm.reference (location_at 78.0 15.0)
                    (Date.make 2022 12 21) "official" true quiet_world)))
  = [Fmt "The sun never rises on this location (on the specified date)." []] /\
  map ln_msg
    (stdout (snd (ss_calc Libm.reference (location_at 78.0 15.0)
                    (Date.make 2022 6 21) "official" false quiet_world)))
  = [Fmt "The sun never sets on this location (on the specified date)." []] /\
  nth_error (trace 78.0 15.0 (Date.make 2022 12 21) "official" true) 10
  = Some [AStr "rising"; AFloat 1.9633497902757115] /\
  nth_error (trace 78.0 15.0 (Date.make 2022 6 21) "official" false) 10
  = Some [AStr "setting"; AFloat (-2.116213054248982)].
Proof.
  split; [|split]; [| |evaluate].
  - intros b z rising w. rewrite ss_calc_compute.
    destruct rising; evaluate.
  - intros b z rising w. rewrite ss_calc_compute.
    destruct rising; evaluate.
Qed.




(** C3.  The unit tests' vector: latitude 51.41416666, longitude -1.515,
    22 November 2022, Official zenith gives 07:34:44 UTC for rising and
    16:08:55 UTC for setting, on any object at that place and in any world,
    through [ss_calc] and through [sunrise] and [sunset], as
    [test_sunrise_22Nov2022] and [test_sunset_22Nov2022] assert. *)
Theorem test_sunrise_sunset_22Nov2022 :
  forall b z w,
    let test_location :=
      {| base := b; latitude := 51.41416666; longitude := -1.515; zenith := z |} in
    let date_given := Date.make 2022 11 22 in
    fst (ss_calc Libm.reference test_location date_given "official" true w)
    = Ok (Datetime.make 2022 11 22 7 34 44 tzutc) /\
    fst (ss_calc Libm.reference test_location date_given "official" false w)
    = Ok (Datetime.make 2022 11 22 16 8 55 tzutc) /\
    fst (sunrise Libm.reference test_location date_given "official" w)
    = Ok (Datetime.make 2022 11 22 7 34 44 tzutc) /\
    fst (sunset Libm.reference test_location date_given "official" w)
    = Ok (Datetime.make 2022 11 22 16 8 55 tzutc).
Proof.
  intros b z w test_location date_given. subst test_location date_given.
  rewrite (sunrise_agree _ _ _ _ w w), (sunset_agree _ _ _ _ w w).
  rewrite !ss_calc_compute. evaluate.
Qed.

(** C4.  The one add-or-subtract of 24 in step 9 does not always bring the
    UTC value into [0,24).  At 71.92 N, 179 W on 25 January 2022 the rising
    value is 48.044 before the wrap and 24.044 after it, the hour is 24 and
    [datetime] raises; at 72.41 N, 179 E on 15 November 2022 the setting
    value is -24.029 before and -0.029 after, the minute is -1 and
    [datetime] raises.  Both places and dates are valid inputs. *)
Theorem utc_wrap_leaves_range :
  valid_latitude 71.92 && valid_longitude (-179.0) &&
  Date.valid (Date.make 2022 1 25) &&
  valid_latitude 72.41 && valid_longitude 179.0 &&
  Date.valid (Date.make 2022 11 15) = true /\
  (forall b z w,
     fst (ss_calc Libm.reference
            {| base := b; latitude := 71.92; longitude := -179.0; zenith := z |}
            (Date.make 2022 1 25) "official" true w)
     = Raise (ValueError "hour must be in 0..23")) /\
  (forall b z w,
     fst (ss_calc Libm.reference
            {| base := b; latitude := 72.41; longitude := 179.0; zenith := z |}
            (Date.make 2022 11 15) "official" false w)
     = Raise (ValueError "minute must be in 0..59")) /\
  skipn 13 (trace 71.92 (-179.0) (Date.make 2022 1 25) "official" true)
  = [[AFloat 24.044057009544161]; [AInt 24; AInt 2; AInt 38]] /\
  skipn 13 (trace 72.41 179.0 (Date.make 2022 11 15) "official" false)
  = [[AFloat (-0.02934785366200998)]; [AInt 0; AInt (-1); AInt (-45)]].
Proof.
  split; [evaluate|].
  split; [|split]; [| |evaluate].
  - intros b z w. rewrite ss_calc_compute. evaluate.
  - intros b z w. rewrite ss_calc_compute. evaluate.
Qed.

(** C5.  A timestamp [ss_calc] returns carries the year, month and day of
    the date it was given, unchanged, and the UTC zone. *)
Theorem ss_calc_keeps_date :
  forall m self date zenith rising w ts w',
    ss_calc m self date zenith rising w = (Ok ts, w') ->
    Datetime.year ts = Date.year date /\
    Datetime.month ts = Date.month date /\
    Datetime.day ts = Date.day date /\
    Datetime.tz ts = tzutc.
Proof.
  intros m self date zenith rising w ts w' E.
  apply ss_calc_returns in E. tauto.
Qed.

Lemma ss_calc_keeps_date_witness :
  ss_calc Libm.reference (location_at 51.41416666 (-1.515)) (Date.make 2022 11 22)
    "official" true quiet_world
  = (Ok (Datetime.make 2022 11 22 7 34 44 tzutc), quiet_world) /\
  Datetime.year (Datetime.make 2022 11 22 7 34 44 tzutc) = 2022 /\
  Datetime.month (Datetime.make 2022 11 22 7 34 44 tzutc) = 11 /\
  Datetime.day (Datetime.make 2022 11 22 7 34 44 tzutc) = 22 /\
  Datetime.tz (Datetime.make 2022 11 22 7 34 44 tzutc) = tzutc.
Proof.
  assert (E : ss_calc Libm.reference (location_at 51.41416666 (-1.515))
                (Date.make 2022 11 22) "official" true quiet_world
              = (Ok (Datetime.make 2022 11 22 7 34 44 tzutc), quiet_world))
    by (vm_compute; reflexivity).
  split; [exact E|].
  exact (ss_calc_keeps_date Libm.reference (location_at 51.41416666 (-1.515))
           (Date.make 2022 11 22) "official" true quiet_world _ _ E).
Defined.

(** C6, as the code has it.  For every date [datetime.date] accepts, step 1
    yields the integer the specification's formula gives, and it lies in
    [1,366]: 366 is reached exactly on 31 December of a year divisible
    by 4, and every other date stays within [1,365]. *)
Theorem day_of_year_range :
  forall date,
    Date.valid date = true ->
    exists N,
      day_of_year date = Ok N /\
      N = day_of_year_spec (Date.year date) (Date.month date) (Date.day date) /\
      1 <= N <= 366 /\
      (N = 366 <->
       Date.month date = 12 /\ Date.day date = 31 /\ Date.year date mod 4 = 0).
Proof.
  intros date Hv.
  exists (day_of_year_spec (Date.year date) (Date.month date) (Date.day date)).
  split; [now apply day_of_year_refines_spec|].
  split; [reflexivity|].
  apply valid_date_bounds in Hv. destruct Hv as (_ & Hm & Hd).
  now apply day_of_year_spec_range.
Qed.

Lemma day_of_year_range_witness :
  Date.valid (Date.make 2022 11 22) = true /\
  exists N,
    day_of_year (Date.make 2022 11 22) = Ok N /\
    N = day_of_year_spec 2022 11 22 /\
    1 <= N <= 366 /\
    (N = 366 <-> 11 = 12 /\ 22 = 31 /\ 2022 mod 4 = 0).
Proof.
  split; [reflexivity|].
  exact (day_of_year_range (Date.make 2022 11 22) eq_refl).
Defined.

(** C6 fails as stated: 31 December 2024 is a valid date and its day of
    the year is 366, outside [1,365]. *)
Lemma day_of_year_366 :
  Date.valid (Date.make 2024 12 31) = true /\
  day_of_year (Date.make 2024 12 31) = Ok 366.
Proof. evaluate. Qed.

(** C7.  The outcome of [ss_calc] is a function of the C library, the
    latitude, the longitude, the date, the zenith name and the direction:
    two calls that agree on these return the same timestamp (or raise the
    same exception) whatever the verbosity, start time and names of the two
    objects, the readings of the clock, and what earlier calls printed. *)
Theorem ss_calc_deterministic :
  forall m b1 b2 z1 z2 lat lon date zenith rising w1 w2,
    fst (ss_calc m {| base := b1; latitude := lat; longitude := lon; zenith := z1 |}
           date zenith rising w1)
    = fst (ss_calc m {| base := b2; latitude := lat; longitude := lon; zenith := z2 |}
             date zenith rising w2).
Proof.
  intros. apply ss_calc_agree.
Qed.







(** C10.  [location(latitude, longitude)] succeeds exactly when both
    arguments are floats: it then yields an object that holds the two
    floats as given, and otherwise it fails with [AssertionError]. *)
Theorem location_init_requires_floats :
  forall lat lon verbosity w,
    if is_float lat && is_float lon then
      exists self w',
        location_init lat lon verbosity w = (Ok self, w') /\
        PyFloat (latitude self) = lat /\
        PyFloat (longitude self) = lon
    else
      fst (location_init lat lon verbosity w) = Raise AssertionError.
Proof.
  intros lat lon verbosity w.
  destruct (location_init_runs lat lon verbosity w) as (b & w' & _ & E).
  rewrite E.
  destruct lat; cbn [is_float andb fst]; try reflexivity;
    destruct lon; cbn [is_float andb fst]; try reflexivity.
  eexists _, w'. cbn. auto.
Qed.

(** ** Further facts *)

(** X1.  The defect behind the polar cases is systematic: with any C library
    whose [acos] has no value outside [-1, 1], a call of [ss_calc] that
    prints one of the two polar announcements ends in the [ValueError] of
    [math.acos], never in a result and never in another error. *)
Theorem polar_announcement_ends_in_ValueError :
  forall m self date zenith rising w,
    (forall x, (1 <? x)%float || (x <? -1)%float = true ->
               math_acos m x = Raise (ValueError "math domain error")) ->
    existsb polar (printed w (snd (ss_calc m self date zenith rising w))) = true ->
    fst (ss_calc m self date zenith rising w)
    = Raise (ValueError "math domain error").
Proof.
  intros m self date zenith rising w Hm Hp.
  now apply announced_then_raises.
Qed.

Lemma polar_announcement_ends_in_ValueError_witness :
  existsb polar
    (printed quiet_world
       (snd (ss_calc Libm.reference (location_at 78.0 15.0) (Date.make 2022 12 21)
               "official" true quiet_world))) = true /\
  fst (ss_calc Libm.reference (location_at 78.0 15.0) (Date.make 2022 12 21)
         "official" true quiet_world)
  = Raise (ValueError "math domain error").
Proof.
  assert (Hp : existsb polar
                 (printed quiet_world
                    (snd (ss_calc Libm.reference (location_at 78.0 15.0)
                            (Date.make 2022 12 21) "official" true quiet_world)))
               = true) by (vm_compute; reflexivity).
  split; [exact Hp|].
  exact (polar_announcement_ends_in_ValueError Libm.reference (location_at 78.0 15.0)
           (Date.make 2022 12 21) "official" true quiet_world
           reference_acos_domain Hp).
Defined.

(** X2.  Every timestamp [ss_calc] returns has its hour in [0,23] and its minute
    and second in [0,59]: [datetime.datetime] checks them. *)
Theorem ss_calc_time_of_day_in_range :
  forall m self date zenith rising w ts w',
    ss_calc m self date zenith rising w = (Ok ts, w') ->
    0 <= Datetime.hour ts <= 23 /\
    0 <= Datetime.minute ts <= 59 /\
    0 <= Datetime.second ts <= 59.
Proof.
  intros m self date zenith rising w ts w' E.
  apply ss_calc_returns in E. tauto.
Qed.

Lemma ss_calc_time_of_day_in_range_witness :
  ss_calc Libm.reference (location_at 51.41416666 (-1.515)) (Date.make 2022 11 22)
    "official" false quiet_world
  = (Ok (Datetime.make 2022 11 22 16 8 55 tzutc), quiet_world) /\
  0 <= 16 <= 23 /\ 0 <= 8 <= 59 /\ 0 <= 55 <= 59.
Proof.
  assert (E : ss_calc Libm.reference (location_at 51.41416666 (-1.515))
                (Date.make 2022 11 22) "official" false quiet_world
              = (Ok (Datetime.make 2022 11 22 16 8 55 tzutc), quiet_world))
    by (vm_compute; reflexivity).
  split; [exact E|].
  exact (ss_calc_time_of_day_in_range Libm.reference
           (location_at 51.41416666 (-1.515)) (Date.make 2022 11 22) "official" false
           quiet_world _ _ E).
Defined.

(** * The scripts: statements and proofs *)

Local Open Scope sh_scope.

(** ** Strings of digits, [int] and [valid_date] *)

Section Strings.
Import Ascii.

Lemma digit_not_space c d : PyStr.digit_of c = Some d -> PyStr.is_space c = false.
Proof.
  unfold PyStr.digit_of, PyStr.is_space. cbv zeta.
  destruct ((48 <=? PyStr.code c) && (PyStr.code c <=? 57)) eqn:E; [|discriminate].
  intros _. apply andb_true_iff in E. destruct E as [E1 E2].
  apply Z.leb_le in E1, E2.
  repeat match goal with
         | |- context [?a <=? ?b] => destruct (Z.leb_spec a b)
         | |- context [?a =? ?b] => destruct (Z.eqb_spec a b)
         end; try lia; reflexivity.
Qed.

Lemma digit_not_sign c d :
  PyStr.digit_of c = Some d ->
  Ascii.eqb c "-" = false /\ Ascii.eqb c "+" = false /\ Ascii.eqb c "_" = false.
Proof.
  intros H.
  repeat split; apply Ascii.eqb_neq; intros ->; vm_compute in H; discriminate.
Qed.

Lemma scan_digits s : forall acc n,
  all_digits s = true ->
  PyStr.scan_int PyStr.AfterDigit s acc n
  = Some (digits_value s acc, n + Z.of_nat (String.length s)).
Proof.
  induction s as [|c s IH]; intros acc n H.
  - cbn [PyStr.scan_int digits_value String.length]. do 2 f_equal. lia.
  - cbn [all_digits] in H. cbn [PyStr.scan_int digits_value String.length].
    destruct (PyStr.digit_of c) as [d|]; [|discriminate].
    rewrite IH by exact H. do 2 f_equal. lia.
Qed.

Lemma int_of_digits s :
  all_digits s = true -> s <> EmptyString ->
  Z.of_nat (String.length s) <= 4300 ->
  PyStr.int_of_str s = Ok (number s).
Proof.
  intros H Hne Hlen. destruct s as [|c s]; [congruence|].
  cbn in H. destruct (PyStr.digit_of c) as [d|] eqn:Hd; [|discriminate].
  unfold PyStr.int_of_str. cbn [PyStr.skip_space].
  rewrite (digit_not_space c d Hd).
  destruct (digit_not_sign c d Hd) as (-> & -> & _).
  cbn [PyStr.scan_int]. rewrite Hd, scan_digits by exact H.
  unfold PyStr.int_max_str_digits.
  cbn [String.length] in Hlen.
  destruct (Z.ltb_spec 4300 (0 + 1 + Z.of_nat (String.length s))); [lia|].
  unfold number. cbn [digits_value]. now rewrite Hd.
Qed.

(** [int(s)] raises nothing but [ValueError]. *)
Lemma int_of_str_raises s e :
  PyStr.int_of_str s = Raise e -> exists msg, e = ValueError msg.
Proof.
  unfold PyStr.int_of_str.
  destruct (match PyStr.skip_space s with
            | String c s' =>
                if Ascii.eqb c "-" then (true, s')
                else if Ascii.eqb c "+" then (false, s') else (false, PyStr.skip_space s)
            | EmptyString => (false, PyStr.skip_space s)
            end) as [negative s1].
  destruct (PyStr.scan_int PyStr.NeedDigit s1 0 0) as [[v digits]|].
  - destruct (PyStr.int_max_str_digits <? digits); intros H; [|discriminate].
    injection H as <-. eauto.
  - intros H. injection H as <-. eauto.
Qed.

Lemma is_integer_total s : exists b, Script.is_integer s = Returns b.
Proof.
  unfold Script.is_integer. destruct (PyStr.int_of_str s) as [v|e] eqn:E; [eauto|].
  destruct (int_of_str_raises s e E) as [msg ->]. eauto.
Qed.

Lemma date_new_valid y mo d :
  date_new y mo d =
  if Date.valid (Date.make y mo d) then Ok (Date.make y mo d)
  else match date_new y mo d with
       | Ok x => Ok x
       | Raise e => Raise e
       end.
Proof.
  unfold date_new, Date.valid. cbn [Date.year Date.month Date.day].
  destruct (1 <=? y), (y <=? 9999), (1 <=? mo), (mo <=? 12), (1 <=? d),
    (d <=? Date.days_in_month y mo); reflexivity.
Qed.

Lemma date_new_invalid y mo d :
  Date.valid (Date.make y mo d) = false ->
  exists msg, date_new y mo d = Raise (ValueError msg).
Proof.
  unfold date_new, Date.valid. cbn [Date.year Date.month Date.day].
  destruct (1 <=? y), (y <=? 9999), (1 <=? mo), (mo <=? 12), (1 <=? d),
    (d <=? Date.days_in_month y mo); cbn; intros H; try discriminate; eauto.
Qed.

Lemma date_new_ok y mo d x :
  date_new y mo d = Ok x -> x = Date.make y mo d /\ Date.valid x = true.
Proof.
  rewrite date_new_valid.
  destruct (Date.valid (Date.make y mo d)) eqn:E.
  - intros H. injection H as <-. auto.
  - destruct (date_new_invalid y mo d E) as [msg ->]. discriminate.
Qed.

(** A string of eight characters, spelled out. *)
Lemma length_8 s :
  String.length s = 8%nat ->
  exists c1 c2 c3 c4 c5 c6 c7 c8,
    s = String c1 (String c2 (String c3 (String c4
          (String c5 (String c6 (String c7 (String c8 EmptyString))))))).
Proof.
  intros H.
  do 8 (destruct s as [|? s]; [discriminate|]).
  destruct s; [|discriminate]. eauto 10.
Qed.

Lemma valid_date_digits s :
  String.length s = 8%nat -> all_digits s = true ->
  let year := number (PyStr.slice 0 4 s) in
  let month := number (PyStr.slice 4 6 s) in
  let day := number (PyStr.slice 6 8 s) in
  Script.valid_date s =
  if Date.valid (Date.make year month day) then Returns (Date.make year month day)
  else Fails (ArgumentTypeError
                (Fmt "valid_date - Error validating date. Value error. Year = '%s', Month = '%s', Day = '%s'"
                   [AInt year; AInt month; AInt day])).
Proof.
  intros Hlen Hd.
  destruct (length_8 s Hlen) as (c1 & c2 & c3 & c4 & c5 & c6 & c7 & c8 & ->).
  cbn [all_digits] in Hd.
  repeat match type of Hd with
         | match PyStr.digit_of ?c with _ => _ end = true =>
             let d := fresh "d" in let E := fresh "E" in
             destruct (PyStr.digit_of c) as [d|] eqn:E; [|discriminate]
         end.
  unfold Script.valid_date. cbn [String.length Nat.eqb negb].
  unfold Script.is_integer. rewrite int_of_digits;
    [| cbn [all_digits]; now rewrite E, E0, E1, E2, E3, E4, E5, E6
     | discriminate | cbn; lia ].
  cbn [ending_then negb].
  change (PyStr.slice 0 4 (String c1 (String c2 (String c3 (String c4
            (String c5 (String c6 (String c7 (String c8 EmptyString)))))))))
    with (String c1 (String c2 (String c3 (String c4 EmptyString)))).
  change (PyStr.slice 4 6 (String c1 (String c2 (String c3 (String c4
            (String c5 (String c6 (String c7 (String c8 EmptyString)))))))))
    with (String c5 (String c6 EmptyString)).
  change (PyStr.slice 6 8 (String c1 (String c2 (String c3 (String c4
            (String c5 (String c6 (String c7 (String c8 EmptyString)))))))))
    with (String c7 (String c8 EmptyString)).
  rewrite !int_of_digits;
    try discriminate; try (cbn; lia);
    try (cbn [all_digits]; now rewrite ?E, ?E0, ?E1, ?E2, ?E3, ?E4, ?E5, ?E6).
  cbn [ending_of ending_then]. cbv zeta.
  set (y := number _). set (mo := number _). set (d' := number _).
  destruct (Date.valid (Date.make y mo d')) eqn:Ev.
  - rewrite date_new_valid, Ev. reflexivity.
  - destruct (date_new_invalid y mo d' Ev) as [msg ->]. reflexivity.
Qed.

Lemma digit_of_digit_char d : 0 <= d <= 9 -> PyStr.digit_of (digit_char d) = Some d.
Proof.
  intros H.
  assert (Hc : d = 0 \/ d = 1 \/ d = 2 \/ d = 3 \/ d = 4 \/ d = 5 \/ d = 6 \/
               d = 7 \/ d = 8 \/ d = 9) by lia.
  repeat (destruct Hc as [-> | Hc]); try subst d; reflexivity.
Qed.

Lemma mod_10_digit n : PyStr.digit_of (digit_char (n mod 10)) = Some (n mod 10).
Proof. apply digit_of_digit_char. pose proof (Z.mod_pos_bound n 10). lia. Qed.

(** No number ends in an underscore. *)
Lemma scan_underscore_last s : forall st acc n,
  PyStr.scan_int st (s ++ "_") acc n = None.
Proof.
  induction s as [|c s IH]; intros st acc n.
  - destruct st; reflexivity.
  - cbn [append PyStr.scan_int].
    destruct st; [destruct (PyStr.digit_of c) | destruct (PyStr.digit_of c) |];
      repeat match goal with
             | |- (if ?b then _ else _) = _ => destruct b
             end;
      first [apply IH | reflexivity].
Qed.

Lemma skip_space_underscore_last s :
  exists s', PyStr.skip_space (s ++ "_") = s' ++ "_".
Proof.
  induction s as [|c s IH].
  - exists EmptyString. reflexivity.
  - cbn [append PyStr.skip_space]. destruct (PyStr.is_space c); [exact IH|].
    exists (String c s). reflexivity.
Qed.

Lemma int_underscore_last s :
  exists msg, PyStr.int_of_str (s ++ "_") = Raise (ValueError msg).
Proof.
  unfold PyStr.int_of_str.
  destruct (skip_space_underscore_last s) as [s' ->].
  destruct s' as [|c s'].
  - cbn. eauto.
  - cbn [append].
    destruct (Ascii.eqb c "-"); [rewrite scan_underscore_last; eauto|].
    destruct (Ascii.eqb c "+"); [rewrite scan_underscore_last; eauto|].
    change (String c (s' ++ "_")) with (String c s' ++ "_").
    rewrite scan_underscore_last. eauto.
Qed.

Lemma int_underscore_first s :
  exists msg, PyStr.int_of_str (String "_" s) = Raise (ValueError msg).
Proof. unfold PyStr.int_of_str. cbn. eauto. Qed.

End Strings.

(** ** Validated coordinates are finite *)

Lemma bounded_is_finite x lo hi :
  is_finite lo = true -> is_finite hi = true ->
  (x <=? hi)%float && (lo <=? x)%float = true -> is_finite x = true.
Proof.
  unfold is_finite, is_nan, is_infinity.
  rewrite !leb_spec, !eqb_spec, !abs_spec.
  change (Prim2SF infinity) with (S754_infinity false).
  destruct (Prim2SF x) as [s|s| |s mx e], (Prim2SF lo) as [sl|sl| |sl ml el],
    (Prim2SF hi) as [sh|sh| |sh mh eh];
    try (destruct s); try (destruct sl); try (destruct sh);
    cbn; try discriminate; try reflexivity;
    intros _ _ _; unfold SFeqb; cbn;
    rewrite ?Z.compare_refl, ?Pos.compare_cont_refl; reflexivity.
Qed.

Section Coordinates.

Variable float_of_str : string -> option float.

Lemma valid_latitude_returns s x :
  Script.valid_latitude float_of_str s = Returns x <->
  float_of_str s = Some x /\ valid_latitude x = true.
Proof.
  unfold Script.valid_latitude, Script.is_number, Script.float_of, valid_latitude.
  destruct (float_of_str s) as [y|]; cbn.
  - destruct ((y <=? 90.0)%float && (-90.0 <=? y)%float) eqn:E; cbn.
    + split; [intros H; injection H as <-; auto | intros [H _]; congruence].
    + split; [discriminate | intros [H H']; injection H as <-; congruence].
  - split; [discriminate | intros [H _]; discriminate].
Qed.

Lemma valid_longitude_returns s x :
  Script.valid_longitude float_of_str s = Returns x <->
  float_of_str s = Some x /\ valid_longitude x = true.
Proof.
  unfold Script.valid_longitude, Script.is_number, Script.float_of, valid_longitude.
  destruct (float_of_str s) as [y|]; cbn.
  - destruct ((y <=? 180.0)%float && (-180.0 <=? y)%float) eqn:E; cbn.
    + split; [intros H; injection H as <-; auto | intros [H _]; congruence].
    + split; [discriminate | intros [H H']; injection H as <-; congruence].
  - split; [discriminate | intros [H _]; discriminate].
Qed.

End Coordinates.

(** ** Quiet objects print nothing *)

Lemma inert_bind {A B} (c : py A) (k : A -> py B) :
  inert c -> (forall a, inert (k a)) -> inert (bind c k).
Proof.
  intros Hc Hk w. unfold bind. specialize (Hc w).
  destruct (c w) as [[a|e] w1]; cbn [snd] in Hc; subst w1; [apply Hk | reflexivity].
Qed.

Lemma inert_lift {A} (o : outcome A) : inert (lift o).
Proof. intros w. reflexivity. Qed.

Lemma inert_ret {A} (a : A) : inert (ret a).
Proof. intros w. reflexivity. Qed.

Lemma inert_message self verbosity msg method :
  verbose self < verbosity -> inert (message self verbosity msg method).
Proof.
  intros H w. unfold message.
  destruct (Z.leb_spec verbosity (verbose self)); [lia | reflexivity].
Qed.

Ltac inert_step :=
  first [ apply inert_lift
        | apply inert_ret
        | apply inert_message; lia
        | apply inert_bind; [|intro]
        | match goal with |- inert (if ?b then _ else _) => destruct b end ].

Lemma ss_calc_inert m self date zenith rising :
  verbose (base self) <= 0 -> inert (ss_calc m self date zenith rising).
Proof.
  intros H. unfold ss_calc. cbv zeta. repeat inert_step.
Qed.

Lemma sunrise_inert m self date zenith :
  verbose (base self) <= 0 -> inert (sunrise m self date zenith).
Proof.
  intros H. unfold sunrise.
  repeat first [ apply ss_calc_inert; exact H | inert_step ].
Qed.

Lemma sunset_inert m self date zenith :
  verbose (base self) <= 0 -> inert (sunset m self date zenith).
Proof.
  intros H. unfold sunset.
  repeat first [ apply ss_calc_inert; exact H | inert_step ].
Qed.

(** The constructor at a verbosity of 0 or less: one reading of the clock,
    nothing printed. *)
Lemma location_init_quiet lat lon verbosity w :
  verbosity <= 0 ->
  location_init lat lon verbosity w =
  (let b := {| verbose := verbosity; start_time := wall w (ticks w);
               typename := "location"; classname := "sunrise_sunset.location" |} in
   match lat with
   | PyFloat lat' =>
       match lon with
       | PyFloat lon' =>
           Ok {| base := b; latitude := lat'; longitude := lon';
                 zenith := ["official"] |}
       | _ => Raise AssertionError
       end
   | _ => Raise AssertionError
   end,
   {| wall := wall w; ticks := S (ticks w); stdout := stdout w |}).
Proof.
  intros H.
  unfold location_init, local_template_init, set_verbose, message.
  cbv zeta. cbn [verbose start_time typename classname].
  destruct (Z.ltb_spec 0 verbosity); [lia|].
  cbv beta iota delta [bind time_time ret verbose start_time typename classname snd fst].
  rewrite andb_false_r.
  cbv beta iota delta [bind time_time ret verbose start_time typename classname snd fst].
  destruct (Z.leb_spec 1 verbosity); [lia|].
  destruct lat; try reflexivity. destruct lon; reflexivity.
Qed.

(** ** The module-level [message], the options and the banner *)

Lemma class_lines_app a b : class_lines (a ++ b) = (class_lines a ++ class_lines b)%list.
Proof.
  induction a as [|[l|e md msg|msg] a IH]; cbn; rewrite ?IH; reflexivity.
Qed.

Lemma class_lines_map ls : class_lines (map FromClass ls) = ls.
Proof. induction ls as [|l ls IH]; cbn; [|rewrite IH]; reflexivity. Qed.

Lemma sh_bind_returns {A B} (c : sh A) (k : A -> sh B) s a s' :
  c s = (Returns a, s') -> sh_bind c k s = k a s'.
Proof. intros E. unfold sh_bind. now rewrite E. Qed.

Lemma chatter_message v t : chatter (Script.message v t).
Proof.
  intros s. unfold Script.message.
  destruct ((v =? 0) && (g_verbose (sh_globals s) =? 0)).
  - eexists. split; [reflexivity|]. cbn. split; [reflexivity|].
    rewrite class_lines_app. cbn. now rewrite app_nil_r.
  - destruct (v <=? g_verbose (sh_globals s)).
    + eexists. split; [reflexivity|]. cbn. split; [reflexivity|].
      rewrite class_lines_app. cbn. now rewrite app_nil_r.
    + eexists. split; [reflexivity|]. split; reflexivity.
Qed.

Lemma chatter_ret : chatter (sh_ret tt).
Proof. intros s. exists s. repeat split. Qed.

Lemma chatter_bind (c : sh unit) (k : unit -> sh unit) :
  chatter c -> chatter (k tt) -> chatter (sh_bind c k).
Proof.
  intros Hc Hk s. destruct (Hc s) as (s1 & E1 & G1 & C1).
  destruct (Hk s1) as (s2 & E2 & G2 & C2).
  exists s2. rewrite (sh_bind_returns _ _ _ _ _ E1). split; [exact E2|].
  split; congruence.
Qed.

Lemma chatter_banner env doc : chatter (banner env doc).
Proof.
  unfold banner. cbv zeta.
  repeat (apply chatter_bind; [first [apply chatter_message
                                     | match goal with
                                       | |- chatter (if ?b then _ else _) =>
                                           destruct b; [apply chatter_message
                                                       | apply chatter_ret]
                                       end ] |]).
  intros s. unfold sh_bind, get_verbose.
  destruct (chatter_message 1
              (SFmt "%s - Verbose level = %s"
                 [SStr (PyStr.basename (argv0 env)); SInt (g_verbose (sh_globals s))]) s)
    as (s1 & E1 & G1 & C1).
  rewrite E1.
  destruct (chatter_message 1
              (SFmt "%s - Initialisation complete." [SStr (PyStr.basename (argv0 env))]) s1)
    as (s2 & E2 & G2 & C2).
  exists s2. split; [exact E2|]. split; congruence.
Qed.

(** Reading the options of sunrise_sunset.py: the global [verbose] becomes
    the parsed one. *)
Lemma read_options_sunrise_sunset args s :
  exists s',
    read_options (SunriseSunset.vars args) s = (Returns tt, s') /\
    g_verbose (sh_globals s') = SunriseSunset.verbose args /\
    g_errors (sh_globals s') = g_errors (sh_globals s) /\
    class_lines (sh_out s') = class_lines (sh_out s).
Proof.
  unfold SunriseSunset.vars, read_options, read_option.
  cbn [String.eqb Ascii.eqb Bool.eqb].
  cbv beta iota delta [sh_bind sh_ret set_global_verbose].
  repeat match goal with
         | |- context [Script.message ?v ?t ?st] =>
             let s1 := fresh "s" in let E := fresh "E" in
             let G := fresh "G" in let C := fresh "C" in
             destruct (chatter_message v t st) as (s1 & E & G & C);
             rewrite E; cbn [sh_globals sh_out g_verbose g_errors] in G, C
         end.
  eexists. split; [reflexivity|].
  split; [|split]; [| |congruence];
    repeat match goal with
           | H : sh_globals _ = _ |- _ => rewrite H; clear H
           end; reflexivity.
Qed.

Lemma read_options_winchester args s :
  exists s',
    read_options (Winchester.vars args) s = (Returns tt, s') /\
    g_verbose (sh_globals s') = Winchester.verbose args /\
    g_errors (sh_globals s') = g_errors (sh_globals s) /\
    class_lines (sh_out s') = class_lines (sh_out s).
Proof.
  unfold Winchester.vars, read_options, read_option.
  cbn [String.eqb Ascii.eqb Bool.eqb].
  cbv beta iota delta [sh_bind sh_ret set_global_verbose].
  repeat match goal with
         | |- context [Script.message ?v ?t ?st] =>
             let s1 := fresh "s" in let E := fresh "E" in
             let G := fresh "G" in let C := fresh "C" in
             destruct (chatter_message v t st) as (s1 & E & G & C);
             rewrite E; cbn [sh_globals sh_out g_verbose g_errors] in G, C
         end.
  eexists. split; [reflexivity|].
  split; [|split]; [| |congruence];
    repeat match goal with
           | H : sh_globals _ = _ |- _ => rewrite H; clear H
           end; reflexivity.
Qed.

Lemma message_0_says t s :
  0 <= g_verbose (sh_globals s) ->
  exists l s',
    Script.message 0 t s = (Returns tt, s') /\
    sh_out s' = (sh_out s ++ [l])%list /\ said l = Some t /\
    sh_globals s' = sh_globals s.
Proof.
  intros H. unfold Script.message. cbn [Z.eqb andb].
  destruct (Z.eqb_spec (g_verbose (sh_globals s)) 0).
  - do 2 eexists. split; [reflexivity|]. cbn. repeat split.
  - destruct (Z.leb_spec 0 (g_verbose (sh_globals s))); [|lia].
    do 2 eexists. split; [reflexivity|]. cbn. repeat split.
Qed.

(** ** Methods called from a script *)

Lemma call_fst {A} (c : py A) s :
  fst (call c s)
  = ending_of (fst (c {| wall := sh_wall s; ticks := sh_ticks s; stdout := [] |})).
Proof. unfold call. destruct (c _) as [o w]. reflexivity. Qed.

Lemma call_inert {A} (c : py A) s :
  inert c ->
  call c s
  = (ending_of (fst (c {| wall := sh_wall s; ticks := sh_ticks s; stdout := [] |})), s).
Proof.
  intros Hc. unfold call.
  specialize (Hc {| wall := sh_wall s; ticks := sh_ticks s; stdout := [] |}).
  destruct (c _) as [o w]. cbn [snd fst] in *. subst w. cbn.
  rewrite app_nil_r. destruct s. reflexivity.
Qed.

Lemma sunrise_outcome m b lat lon z date zenith w :
  fst (sunrise m {| base := b; latitude := lat; longitude := lon; zenith := z |}
         date zenith w)
  = outcome_at m lat lon date zenith true.
Proof.
  unfold outcome_at.
  rewrite (sunrise_agree m _ date zenith w w). apply ss_calc_agree.
Qed.

Lemma sunset_outcome m b lat lon z date zenith w :
  fst (sunset m {| base := b; latitude := lat; longitude := lon; zenith := z |}
         date zenith w)
  = outcome_at m lat lon date zenith false.
Proof.
  unfold outcome_at.
  rewrite (sunset_agree m _ date zenith w w). apply ss_calc_agree.
Qed.

Lemma message_quiet v t s :
  g_verbose (sh_globals s) = 0 -> 0 < v -> Script.message v t s = (Returns tt, s).
Proof.
  intros Hq Hv. unfold Script.message. rewrite Hq.
  destruct (Z.eqb_spec v 0); [lia|]. cbn [andb].
  destruct (Z.leb_spec v 0); [lia|]. reflexivity.
Qed.

Lemma message_0_quiet t s :
  g_verbose (sh_globals s) = 0 ->
  Script.message 0 t s =
  (Returns tt,
   {| sh_wall := sh_wall s; sh_ticks := sh_ticks s;
      sh_out := (sh_out s ++ [Bare t])%list; sh_globals := sh_globals s |}).
Proof. intros Hq. unfold Script.message. rewrite Hq. reflexivity. Qed.

Lemma banner_quiet env doc s :
  g_verbose (sh_globals s) = 0 -> banner env doc s = (Returns tt, s).
Proof.
  intros Hq. unfold banner. cbv zeta.
  repeat (rewrite (sh_bind_returns _ _ s tt s);
          [| first [ apply message_quiet; [exact Hq | lia]
                   | match goal with
                     | |- (if ?b then _ else _) _ = _ =>
                         destruct b; [apply message_quiet; [exact Hq | lia]
                                     | reflexivity]
                     end ] ]).
  unfold sh_bind, get_verbose.
  rewrite message_quiet by (exact Hq || lia).
  apply message_quiet; [exact Hq | lia].
Qed.

Lemma read_options_sunrise_sunset_quiet args s :
  SunriseSunset.verbose args = 0 ->
  read_options (SunriseSunset.vars args) s = (Returns tt, hushed s).
Proof.
  intros Hq. unfold SunriseSunset.vars. rewrite Hq. reflexivity.
Qed.

Lemma read_options_winchester_quiet args s :
  Winchester.verbose args = 0 ->
  read_options (Winchester.vars args) s = (Returns tt, hushed s).
Proof.
  intros Hq. unfold Winchester.vars. rewrite Hq. reflexivity.
Qed.

Lemma sh_bind_fst_fails {A B} (c : sh A) (k : A -> sh B) s f :
  fst (c s) = Fails f -> fst (sh_bind c k s) = Fails f.
Proof.
  unfold sh_bind. destruct (c s) as [[a|f'] s']; cbn [fst]; [discriminate|].
  intros [= ->]. reflexivity.
Qed.

Lemma call_location_init_quiet lat lon verbosity s :
  verbosity <= 0 ->
  call (location_init (PyFloat lat) (PyFloat lon) verbosity) s =
  (Returns {| base := {| verbose := verbosity; start_time := sh_wall s (sh_ticks s);
                         typename := "location";
                         classname := "sunrise_sunset.location" |};
              latitude := lat; longitude := lon; zenith := ["official"] |},
   {| sh_wall := sh_wall s; sh_ticks := S (sh_ticks s); sh_out := sh_out s;
      sh_globals := sh_globals s |}).
Proof.
  intros H. unfold call. rewrite location_init_quiet by exact H.
  cbn. now rewrite app_nil_r.
Qed.

(** ** What [ss_calc] returns at a place *)

Lemma outcome_at_returns m lat lon date zenith rising ts :
  outcome_at m lat lon date zenith rising = Ok ts ->
  Datetime.year ts = Date.year date /\
  Datetime.month ts = Date.month date /\
  Datetime.day ts = Date.day date /\
  0 <= Datetime.hour ts <= 23 /\
  0 <= Datetime.minute ts <= 59 /\
  0 <= Datetime.second ts <= 59.
Proof.
  unfold outcome_at.
  destruct (ss_calc m (location_at lat lon) date zenith rising quiet_world)
    as [o w'] eqn:E.
  cbn [fst]. intros ->. apply ss_calc_returns in E. tauto.
Qed.

(** ** [set_verbose] on an object with a stack *)

Lemma set_verbose_of_runs self verbosity w :
  exists w',
    set_verbose_of self verbosity w =
    (Returns (verbose (attrs self),
              {| attrs := {| verbose := verbosity;
                             start_time := start_time (attrs self);
                             typename := typename (attrs self);
                             classname := classname (attrs self) |};
                 verbose_stack := verbose_stack self |}), w').
Proof.
  unfold set_verbose_of.
  destruct (set_verbose_runs (attrs self) verbosity w) as [w' ->].
  exists w'. reflexivity.
Qed.

(** ** What the methods print *)

Lemma appending_bind {A B} (c : py A) (k : A -> py B) :
  appending c -> (forall a, appending (k a)) -> appending (bind c k).
Proof.
  intros Hc Hk w. unfold bind. destruct (Hc w) as [l1 E1].
  destruct (c w) as [[a|e] w1]; cbn [snd] in *.
  - destruct (Hk a w1) as [l2 E2]. exists (l1 ++ l2)%list.
    now rewrite E2, E1, app_assoc.
  - now exists l1.
Qed.

Lemma appending_lift {A} (o : outcome A) : appending (lift o).
Proof. intros w. exists []. cbn. now rewrite app_nil_r. Qed.

Lemma appending_ret {A} (a : A) : appending (ret a).
Proof. intros w. exists []. cbn. now rewrite app_nil_r. Qed.

Lemma appending_message self verbosity msg method :
  appending (message self verbosity msg method).
Proof.
  intros w. unfold message. destruct (verbosity <=? verbose self).
  - eexists [_]. reflexivity.
  - exists []. cbn. now rewrite app_nil_r.
Qed.

Ltac appending_step :=
  first [ apply appending_lift
        | apply appending_ret
        | apply appending_message
        | apply appending_bind; [|intro]
        | match goal with |- appending (if ?b then _ else _) => destruct b end ].

Lemma ss_calc_appending m self date zenith rising :
  appending (ss_calc m self date zenith rising).
Proof. unfold ss_calc. cbv zeta. repeat appending_step. Qed.

Lemma message_prints self verbosity msg method w :
  verbosity <= verbose self ->
  message self verbosity msg method w =
  (Ok tt, {| wall := wall w; ticks := S (ticks w);
             stdout := (stdout w ++
                        [Line (wall w (ticks w) - start_time self)%float
                           (classname self) method msg])%list |}).
Proof.
  intros H. unfold message. destruct (Z.leb_spec verbosity (verbose self)); [|lia].
  reflexivity.
Qed.

(** With messages on, [sunrise] ends what it prints with the time it
    returns. *)
Lemma sunrise_reports m self date zenith w ts w' :
  1 <= verbose (base self) ->
  sunrise m self date zenith w = (Ok ts, w') ->
  exists before elapsed,
    stdout w' =
    (stdout w ++ before ++
     [Line elapsed (classname (base self)) "sunrise"
        (Fmt "Sunrise is %i:%02i:%02i"
           [AInt (Datetime.hour ts); AInt (Datetime.minute ts);
            AInt (Datetime.second ts)])])%list.
Proof.
  intros Hv. unfold sunrise.
  rewrite (bind_ok _ _ _ _ _ (message_prints _ 1 _ _ w Hv)).
  unfold bind at 1.
  match goal with
  | |- context [ss_calc m self date zenith true ?w1] =>
      destruct (ss_calc_appending m self date zenith true w1) as [ls E];
      destruct (ss_calc m self date zenith true w1) as [[t|e] w2]
  end; [|discriminate].
  cbn [snd stdout] in E.
  rewrite (bind_ok _ _ _ _ _ (message_prints _ 1 _ _ w2 Hv)).
  cbn [ret]. intros [= -> <-]. cbn [stdout].
  rewrite E, <- !app_assoc. cbn [app]. eexists (_ :: ls), _. reflexivity.
Qed.

Lemma sunset_reports m self date zenith w ts w' :
  1 <= verbose (base self) ->
  sunset m self date zenith w = (Ok ts, w') ->
  exists before elapsed,
    stdout w' =
    (stdout w ++ before ++
     [Line elapsed (classname (base self)) "sunset"
        (Fmt "Sunset is %i:%02i:%02i"
           [AInt (Datetime.hour ts); AInt (Datetime.minute ts);
            AInt (Datetime.second ts)])])%list.
Proof.
  intros Hv. unfold sunset.
  rewrite (bind_ok _ _ _ _ _ (message_prints _ 1 _ _ w Hv)).
  unfold bind at 1.
  match goal with
  | |- context [ss_calc m self date zenith false ?w1] =>
      destruct (ss_calc_appending m self date zenith false w1) as [ls E];
      destruct (ss_calc m self date zenith false w1) as [[t|e] w2]
  end; [|discriminate].
  cbn [snd stdout] in E.
  rewrite (bind_ok _ _ _ _ _ (message_prints _ 1 _ _ w2 Hv)).
  cbn [ret]. intros [= -> <-]. cbn [stdout].
  rewrite E, <- !app_assoc. cbn [app]. eexists (_ :: ls), _. reflexivity.
Qed.

(** A method whose output ends in the line [l], called from a script. *)
Lemma call_reports {A} (c : py A) s a w' before l :
  c {| wall := sh_wall s; ticks := sh_ticks s; stdout := [] |} = (Ok a, w') ->
  stdout w' = ([] ++ before ++ [l])%list ->
  exists s',
    call c s = (Returns a, s') /\
    sh_globals s' = sh_globals s /\
    class_lines (sh_out s') = (class_lines (sh_out s) ++ before ++ [l])%list.
Proof.
  intros E Hout. unfold call. rewrite E. eexists. split; [reflexivity|].
  cbn [sh_globals sh_out]. split; [reflexivity|].
  now rewrite class_lines_app, class_lines_map, Hout.
Qed.

(** ** The constructor *)

(** What the constructor leaves in the inherited attributes. *)
Lemma location_init_base lat lon verbosity w self w' :
  location_init lat lon verbosity w = (Ok self, w') ->
  base self = {| verbose := verbosity; start_time := wall w (ticks w);
                 typename := "location"; classname := "sunrise_sunset.location" |}.
Proof.
  unfold location_init.
  rewrite (bind_ok local_template_init _ w _ _ eq_refl). cbv zeta.
  match goal with
  | |- context [bind (set_verbose ?s ?v) _ ?w1] =>
      destruct (set_verbose_runs s v w1) as [w2 E2];
      rewrite (bind_ok _ _ _ _ _ E2)
  end.
  cbn [snd].
  match goal with
  | |- context [bind (message ?s ?v ?t ?mt) _ ?w1] =>
      destruct (message_runs s v t mt w1) as [w3 E3];
      rewrite (bind_ok _ _ _ _ _ E3)
  end.
  destruct lat; try discriminate. destruct lon; try discriminate.
  intros [= <- _]. reflexivity.
Qed.

(** ** [int] on a sign or a space before the digits *)

Section Signs.
Import Ascii.

Lemma int_of_padded c s :
  PyStr.is_space c = true \/ String c EmptyString = "+" ->
  all_digits s = true -> s <> EmptyString ->
  Z.of_nat (String.length s) <= 4300 ->
  PyStr.int_of_str (String c s) = Ok (number s).
Proof.
  intros Hc Hs Hne Hlen.
  rewrite <- (int_of_digits s Hs Hne Hlen).
  destruct s as [|c1 s]; [congruence|].
  cbn [all_digits] in Hs.
  destruct (PyStr.digit_of c1) as [d|] eqn:Hd; [|discriminate].
  unfold PyStr.int_of_str.
  destruct Hc as [Hc | [= ->]].
  - cbn [PyStr.skip_space]. rewrite Hc. reflexivity.
  - cbn [PyStr.skip_space].
    change (PyStr.is_space "+") with false. cbv iota.
    change (Ascii.eqb "+" "-") with false. change (Ascii.eqb "+" "+") with true.
    cbv iota.
    rewrite (digit_not_space c1 d Hd).
    destruct (digit_not_sign c1 d Hd) as (-> & -> & _).
    reflexivity.
Qed.

End Signs.

(** ** Evaluations the statements below rest on *)

Lemma test_location_rise :
  outcome_at Libm.reference 51.41416666 (-1.515) (Date.make 2022 11 22) "official" true
  = Ok (Datetime.make 2022 11 22 7 34 44 tzutc).
Proof. vm_compute; reflexivity. Qed.

Lemma test_location_set :
  outcome_at Libm.reference 51.41416666 (-1.515) (Date.make 2022 11 22) "official" false
  = Ok (Datetime.make 2022 11 22 16 8 55 tzutc).
Proof. vm_compute; reflexivity. Qed.

Lemma winchester_rise :
  outcome_at Libm.reference 51.0632 (-1.308) (Date.make 2022 11 22) "official" true
  = Ok (Datetime.make 2022 11 22 7 32 30 tzutc).
Proof. vm_compute; reflexivity. Qed.

Lemma winchester_set :
  outcome_at Libm.reference 51.0632 (-1.308) (Date.make 2022 11 22) "official" false
  = Ok (Datetime.make 2022 11 22 16 9 30 tzutc).
Proof. vm_compute; reflexivity. Qed.

(** ** Further properties of the scripts *)

(** X3.  On a string of eight digits [valid_date] never lets an exception
    escape and decides by the calendar alone: it returns the date the
    digits spell as YYYYMMDD when that is a day of the Gregorian calendar
    (year 1 to 9999), and raises [ArgumentTypeError] with the "Value
    error" message otherwise. *)
Theorem valid_date_on_eight_digits s :
  String.length s = 8%nat -> all_digits s = true ->
  let year := number (PyStr.slice 0 4 s) in
  let month := number (PyStr.slice 4 6 s) in
  let day := number (PyStr.slice 6 8 s) in
  Script.valid_date s =
  if Date.valid (Date.make year month day) then Returns (Date.make year month day)
  else Fails (ArgumentTypeError
                (Fmt "valid_date - Error validating date. Value error. Year = '%s', Month = '%s', Day = '%s'"
                   [AInt year; AInt month; AInt day])).
Proof. exact (valid_date_digits s). Qed.

Lemma valid_date_on_eight_digits_witness :
  String.length "20221120" = 8%nat /\ all_digits "20221120" = true /\
  Script.valid_date "20221120" = Returns (Date.make 2022 11 20).
Proof.
  split; [reflexivity|]. split; [reflexivity|].
  exact (valid_date_on_eight_digits "20221120" eq_refl eq_refl).
Defined.

(** X4.  Round trip: every date of the calendar, written as YYYYMMDD with
    leading zeros, is read back by [valid_date] as that same date. *)
Theorem valid_date_round_trip d :
  Date.valid d = true -> Script.valid_date (yyyymmdd d) = Returns d.
Proof.
  intros Hv. destruct d as [y mo dd].
  pose proof (valid_date_bounds _ Hv) as (Hy & Hm & Hd).
  cbn [Date.year Date.month Date.day] in Hy, Hm, Hd.
  pose proof (valid_date_digits (yyyymmdd (Date.make y mo dd))) as H.
  unfold yyyymmdd in *. cbn [Date.year Date.month Date.day decimal append] in *.
  cbn [String.length all_digits] in H. rewrite !mod_10_digit in H.
  specialize (H eq_refl eq_refl).
  unfold PyStr.slice, number in H.
  cbn [Nat.sub substring digits_value] in H. rewrite !mod_10_digit in H.
  cbv zeta in H.
  assert (Hmax : Date.days_in_month y mo <= 31).
  { unfold Date.days_in_month.
    destruct (mo =? 2); [destruct (Date.is_leap y); lia|].
    destruct ((mo =? 4) || (mo =? 6) || (mo =? 9) || (mo =? 11)); lia. }
  match type of H with
  | context [Date.make ?a ?b ?c] =>
      replace a with y in H by (Z.div_mod_to_equations; lia);
      replace b with mo in H by (Z.div_mod_to_equations; lia);
      replace c with dd in H by (Z.div_mod_to_equations; lia)
  end.
  rewrite Hv in H. exact H.
Qed.

Lemma valid_date_round_trip_witness :
  Date.valid (Date.make 2024 2 29) = true /\
  Script.valid_date "20240229" = Returns (Date.make 2024 2 29).
Proof.
  split; [reflexivity|].
  exact (valid_date_round_trip (Date.make 2024 2 29) eq_refl).
Defined.

(** X5.  Whatever [valid_date] returns, on any string, is a day of the
    calendar, and the string had eight characters. *)
Theorem valid_date_returns_calendar_dates s d :
  Script.valid_date s = Returns d -> String.length s = 8%nat /\ Date.valid d = true.
Proof.
  unfold Script.valid_date.
  destruct (Nat.eqb_spec (String.length s) 8) as [Hl|Hl]; cbn [negb]; [|discriminate].
  destruct (is_integer_total s) as [b ->]. cbn [ending_then].
  destruct b; cbn [negb]; [|discriminate].
  destruct (PyStr.int_of_str (PyStr.slice 0 4 s)) as [y|]; cbn; [|discriminate].
  destruct (PyStr.int_of_str (PyStr.slice 4 6 s)) as [mo|]; cbn; [|discriminate].
  destruct (PyStr.int_of_str (PyStr.slice 6 8 s)) as [dd|]; cbn; [|discriminate].
  destruct (date_new y mo dd) as [x|e] eqn:E.
  - intros H. injection H as <-. apply date_new_ok in E. tauto.
  - destruct e; discriminate.
Qed.

Lemma valid_date_returns_calendar_dates_witness :
  Script.valid_date "20221122" = Returns (Date.make 2022 11 22) /\
  String.length "20221122" = 8%nat /\ Date.valid (Date.make 2022 11 22) = true.
Proof.
  split; [reflexivity|].
  exact (valid_date_returns_calendar_dates "20221122" (Date.make 2022 11 22) eq_refl).
Defined.

(** X6.  [valid_date] lets a [ValueError] escape: when a string of eight
    characters passes [is_integer] (Python's [int] allows single
    underscores between digits) and has an underscore as its fourth,
    fifth, sixth or seventh character, one of the three fields begins or
    ends with that underscore, its [int(...)] raises [ValueError], and
    nothing turns it into the [ArgumentTypeError] of the other checks. *)
Theorem valid_date_underscore_escapes s i :
  String.length s = 8%nat ->
  (3 <= i <= 6)%nat -> String.get i s = Some PyStr.underscore ->
  Script.is_integer s = Returns true ->
  exists msg, Script.valid_date s = Fails (Builtin (ValueError msg)).
Proof.
  intros Hlen Hi Hget Hint. unfold PyStr.underscore in Hget.
  destruct (length_8 s Hlen) as (c1 & c2 & c3 & c4 & c5 & c6 & c7 & c8 & ->).
  unfold Script.valid_date. cbn [String.length Nat.eqb negb]. rewrite Hint.
  cbn [ending_then negb].
  change (PyStr.slice 0 4 (String c1 (String c2 (String c3 (String c4
            (String c5 (String c6 (String c7 (String c8 EmptyString)))))))))
    with (String c1 (String c2 (String c3 (String c4 EmptyString)))).
  change (PyStr.slice 4 6 (String c1 (String c2 (String c3 (String c4
            (String c5 (String c6 (String c7 (String c8 EmptyString)))))))))
    with (String c5 (String c6 EmptyString)).
  change (PyStr.slice 6 8 (String c1 (String c2 (String c3 (String c4
            (String c5 (String c6 (String c7 (String c8 EmptyString)))))))))
    with (String c7 (String c8 EmptyString)).
  assert (Hc : (i = 3 \/ i = 4 \/ i = 5 \/ i = 6)%nat) by lia.
  destruct Hc as [-> | [-> | [-> | ->]]]; cbn in Hget; injection Hget as ->.
  - destruct (int_underscore_last (String c1 (String c2 (String c3 EmptyString))))
      as [msg E].
    cbn [append] in E. rewrite E. cbn. eauto.
  - destruct (PyStr.int_of_str (String c1 (String c2 (String c3 (String c4 EmptyString)))))
      as [y|e] eqn:Ey.
    + destruct (int_underscore_first (String c6 EmptyString)) as [msg E].
      rewrite E. cbn. eauto.
    + destruct (int_of_str_raises _ _ Ey) as [msg ->]. cbn. eauto.
  - destruct (PyStr.int_of_str (String c1 (String c2 (String c3 (String c4 EmptyString)))))
      as [y|e] eqn:Ey.
    + destruct (int_underscore_last (String c5 EmptyString)) as [msg E].
      cbn [append] in E. rewrite E. cbn. eauto.
    + destruct (int_of_str_raises _ _ Ey) as [msg ->]. cbn. eauto.
  - destruct (PyStr.int_of_str (String c1 (String c2 (String c3 (String c4 EmptyString)))))
      as [y|e] eqn:Ey.
    + destruct (PyStr.int_of_str (String c5 (String c6 EmptyString))) as [mo|e] eqn:Em.
      * destruct (int_underscore_first (String c8 EmptyString)) as [msg E].
        rewrite E. cbn. eauto.
      * destruct (int_of_str_raises _ _ Em) as [msg ->]. cbn. eauto.
    + destruct (int_of_str_raises _ _ Ey) as [msg ->]. cbn. eauto.
Qed.

Lemma valid_date_underscore_escapes_witness :
  String.length "2022_111" = 8%nat /\ (3 <= 4 <= 6)%nat /\
  String.get 4 "2022_111" = Some PyStr.underscore /\
  Script.is_integer "2022_111" = Returns true /\
  exists msg, Script.valid_date "2022_111" = Fails (Builtin (ValueError msg)).
Proof.
  split; [reflexivity|]. split; [lia|]. split; [reflexivity|]. split; [reflexivity|].
  exact (valid_date_underscore_escapes "2022_111" 4%nat eq_refl
           (conj (le_S _ _ (le_n 3)) (le_S _ _ (le_S _ _ (le_n 4)))) eq_refl eq_refl).
Defined.

(** X7.  [valid_date] does not insist on eight digits: a white-space
    character or a plus sign followed by YYYMMDD, the zero-padded spelling
    of a date of the years 1 to 999, passes the length check and
    [is_integer], [int] skips the first character, and the date is
    returned. *)
Theorem valid_date_accepts_padded c d :
  PyStr.is_space c = true \/ String c EmptyString = "+" ->
  Date.valid d = true -> Date.year d <= 999 ->
  Script.valid_date (String c (yyymmdd d)) = Returns d.
Proof.
  intros Hc Hv Hy3. destruct d as [y mo dd].
  pose proof (valid_date_bounds _ Hv) as (Hy & Hm & Hd).
  cbn [Date.year Date.month Date.day] in Hy, Hm, Hd, Hy3.
  assert (Hmax : Date.days_in_month y mo <= 31).
  { unfold Date.days_in_month.
    destruct (mo =? 2); [destruct (Date.is_leap y); lia|].
    destruct ((mo =? 4) || (mo =? 6) || (mo =? 9) || (mo =? 11)); lia. }
  unfold yyymmdd, Script.valid_date.
  cbn [Date.year Date.month Date.day decimal append String.length Nat.eqb negb].
  unfold Script.is_integer.
  rewrite int_of_padded;
    [| exact Hc | cbn [all_digits]; rewrite !mod_10_digit; reflexivity
     | discriminate | cbn; lia ].
  cbn [ending_then negb].
  unfold PyStr.slice. cbn [Nat.sub substring].
  rewrite int_of_padded;
    [| exact Hc | cbn [all_digits]; rewrite !mod_10_digit; reflexivity
     | discriminate | cbn; lia ].
  rewrite !int_of_digits;
    try discriminate; try (cbn; lia);
    try (cbn [all_digits]; rewrite !mod_10_digit; reflexivity).
  cbn [ending_of ending_then]. unfold number. cbn [digits_value].
  rewrite !mod_10_digit.
  match goal with
  | |- context [date_new ?a ?b ?c] =>
      replace a with y by (Z.div_mod_to_equations; lia);
      replace b with mo by (Z.div_mod_to_equations; lia);
      replace c with dd by (Z.div_mod_to_equations; lia)
  end.
  rewrite date_new_valid, Hv. reflexivity.
Qed.

Lemma valid_date_accepts_padded_witness :
  (PyStr.is_space PyStr.space = true \/ String PyStr.space EmptyString = "+") /\
  Date.valid (Date.make 22 12 31) = true /\ 22 <= 999 /\
  Script.valid_date " 0221231" = Returns (Date.make 22 12 31).
Proof.
  split; [left; reflexivity|]. split; [reflexivity|]. split; [lia|].
  exact (valid_date_accepts_padded PyStr.space (Date.make 22 12 31)
           (or_introl eq_refl) eq_refl ltac:(cbn; lia)).
Defined.

(** X8.  Whatever [float] makes of a string, a value [valid_latitude]
    returns is the float of the string, lies within [-90, 90] and is
    finite: NaN and the infinities fail the range test. *)
Theorem valid_latitude_returns_finite (float_of_str : string -> option float) s x :
  Script.valid_latitude float_of_str s = Returns x ->
  float_of_str s = Some x /\ valid_latitude x = true /\ is_finite x = true.
Proof.
  intros H. apply valid_latitude_returns in H. destruct H as [H1 H2].
  split; [exact H1|]. split; [exact H2|].
  apply (bounded_is_finite x (-90.0) 90.0); [reflexivity | reflexivity | exact H2].
Qed.

Lemma valid_latitude_returns_finite_witness :
  Script.valid_latitude float_of_test_strings "51.41416666" = Returns 51.41416666%float /\
  float_of_test_strings "51.41416666" = Some 51.41416666%float /\
  valid_latitude 51.41416666 = true /\ is_finite 51.41416666 = true.
Proof.
  split; [reflexivity|].
  exact (valid_latitude_returns_finite float_of_test_strings "51.41416666"
           51.41416666%float eq_refl).
Defined.

(** X9.  Likewise a value [valid_longitude] returns is the float of the
    string, lies within [-180, 180] and is finite. *)
Theorem valid_longitude_returns_finite (float_of_str : string -> option float) s x :
  Script.valid_longitude float_of_str s = Returns x ->
  float_of_str s = Some x /\ valid_longitude x = true /\ is_finite x = true.
Proof.
  intros H. apply valid_longitude_returns in H. destruct H as [H1 H2].
  split; [exact H1|]. split; [exact H2|].
  apply (bounded_is_finite x (-180.0) 180.0); [reflexivity | reflexivity | exact H2].
Qed.

Lemma valid_longitude_returns_finite_witness :
  Script.valid_longitude float_of_test_strings "-1.515" = Returns (-1.515)%float /\
  float_of_test_strings "-1.515" = Some (-1.515)%float /\
  valid_longitude (-1.515) = true /\ is_finite (-1.515) = true.
Proof.
  split; [reflexivity|].
  exact (valid_longitude_returns_finite float_of_test_strings "-1.515"
           (-1.515)%float eq_refl).
Defined.

(** X10.  A [location] whose verbosity is 0 or less is silent: [sunrise],
    [sunset] and [ss_calc] print nothing and do not read the clock; the
    world after the call is the world before it, whether the call returns
    or raises. *)
Theorem quiet_location_leaves_world m self date zenith w :
  verbose (base self) <= 0 ->
  snd (sunrise m self date zenith w) = w /\
  snd (sunset m self date zenith w) = w /\
  forall rising, snd (ss_calc m self date zenith rising w) = w.
Proof.
  intros H. split; [apply sunrise_inert, H|]. split; [apply sunset_inert, H|].
  intros rising. apply ss_calc_inert, H.
Qed.

Lemma quiet_location_leaves_world_witness :
  verbose (base (quiet_location_at 51.41416666 (-1.515))) <= 0 /\
  snd (sunrise Libm.reference (quiet_location_at 51.41416666 (-1.515))
         (Date.make 2022 11 22) "official" quiet_world) = quiet_world /\
  snd (sunset Libm.reference (quiet_location_at 51.41416666 (-1.515))
         (Date.make 2022 11 22) "official" quiet_world) = quiet_world /\
  forall rising,
    snd (ss_calc Libm.reference (quiet_location_at 51.41416666 (-1.515))
           (Date.make 2022 11 22) "official" rising quiet_world) = quiet_world.
Proof.
  split; [cbn; lia|].
  exact (quiet_location_leaves_world Libm.reference
           (quiet_location_at 51.41416666 (-1.515)) (Date.make 2022 11 22)
           "official" quiet_world ltac:(cbn; lia)).
Defined.

(** X11.  sunrise_sunset.py with [--date]: a latitude of 0.0 (the equator),
    a longitude of 0.0 (the Greenwich meridian) or a missing one is
    refused, because [not latitude] is true of 0.0 as of [None].  [main]
    returns 4 without making a [location]; unless the verbosity is
    negative, the last line printed says which of the two "is required",
    the latitude first. *)
Theorem main_rejects_zero_coordinate m env run_tests args s d :
  SunriseSunset.opt_test args = false ->
  SunriseSunset.Date args = Some d ->
  SunriseSunset.falsy (SunriseSunset.Latitude args)
  || SunriseSunset.falsy (SunriseSunset.Longitude args) = true ->
  exists s',
    SunriseSunset.main m env run_tests args s = (Returns 4, s') /\
    class_lines (sh_out s') = class_lines (sh_out s) /\
    (0 <= SunriseSunset.verbose args ->
     exists before l,
       sh_out s' = (before ++ [l])%list /\
       said l = Some (SFmt (if SunriseSunset.falsy (SunriseSunset.Latitude args)
                            then "Latitude is required" else "Longitude is required")
                        [])).
Proof.
  intros Ht Hd Hz. unfold SunriseSunset.main.
  destruct (read_options_sunrise_sunset args s) as (s1 & E1 & V1 & _ & C1).
  rewrite (sh_bind_returns _ _ _ _ _ E1).
  destruct (chatter_banner env SunriseSunset.doc s1) as (s2 & E2 & G2 & C2).
  rewrite (sh_bind_returns _ _ _ _ _ E2).
  rewrite Ht, Hd.
  destruct (SunriseSunset.falsy (SunriseSunset.Latitude args)) eqn:Hlat.
  - destruct (chatter_message 0 (SFmt "Latitude is required" []) s2) as (s3 & E3 & G3 & C3).
    exists s3. rewrite (sh_bind_returns _ _ _ _ _ E3).
    split; [reflexivity|]. split; [congruence|].
    intros Hv.
    destruct (message_0_says (SFmt "Latitude is required" []) s2) as (l & s3' & E & O & S & _);
      [rewrite G2, V1; exact Hv|].
    rewrite E3 in E. injection E as <-. eauto.
  - cbn [orb] in Hz. rewrite Hz.
    destruct (chatter_message 0 (SFmt "Longitude is required" []) s2) as (s3 & E3 & G3 & C3).
    exists s3. rewrite (sh_bind_returns _ _ _ _ _ E3).
    split; [reflexivity|]. split; [congruence|].
    intros Hv.
    destruct (message_0_says (SFmt "Longitude is required" []) s2) as (l & s3' & E & O & S & _);
      [rewrite G2, V1; exact Hv|].
    rewrite E3 in E. injection E as <-. eauto.
Qed.

Lemma main_rejects_zero_coordinate_witness :
  SunriseSunset.opt_test on_the_equator = false /\
  SunriseSunset.Date on_the_equator = Some (Date.make 2022 11 22) /\
  SunriseSunset.falsy (SunriseSunset.Latitude on_the_equator)
  || SunriseSunset.falsy (SunriseSunset.Longitude on_the_equator) = true /\
  exists s',
    SunriseSunset.main Libm.reference (a_linux_run "sunrise_sunset.py") (sh_ret tt)
      on_the_equator at_start = (Returns 4, s') /\
    class_lines (sh_out s') = class_lines (sh_out at_start) /\
    (0 <= SunriseSunset.verbose on_the_equator ->
     exists before l,
       sh_out s' = (before ++ [l])%list /\
       said l = Some (SFmt (if SunriseSunset.falsy (SunriseSunset.Latitude on_the_equator)
                            then "Latitude is required" else "Longitude is required")
                        [])).
Proof.
  split; [reflexivity|]. split; [reflexivity|]. split; [reflexivity|].
  exact (main_rejects_zero_coordinate Libm.reference (a_linux_run "sunrise_sunset.py")
           (sh_ret tt) on_the_equator at_start (Date.make 2022 11 22)
           eq_refl eq_refl eq_refl).
Defined.

(** X12.  sunrise_sunset.py without [--date]: the two "is required" tests
    are skipped, so a missing [--latitude] or [--longitude] reaches the
    constructor as [None] and [main] ends in the [AssertionError] of
    [location.__init__] instead of a message and the return value 4. *)
Theorem main_without_date_asserts m env run_tests args s :
  SunriseSunset.opt_test args = false ->
  SunriseSunset.Date args = None ->
  SunriseSunset.Latitude args = None \/ SunriseSunset.Longitude args = None ->
  fst (SunriseSunset.main m env run_tests args s) = Fails (Builtin AssertionError).
Proof.
  intros Ht Hd Hc. unfold SunriseSunset.main.
  destruct (read_options_sunrise_sunset args s) as (s1 & E1 & V1 & _ & C1).
  rewrite (sh_bind_returns _ _ _ _ _ E1).
  destruct (chatter_banner env SunriseSunset.doc s1) as (s2 & E2 & G2 & C2).
  rewrite (sh_bind_returns _ _ _ _ _ E2).
  rewrite Ht, Hd.
  rewrite (sh_bind_returns get_verbose _ s2 _ s2 eq_refl).
  apply sh_bind_fst_fails. rewrite call_fst.
  match goal with
  | |- context [location_init ?a ?b ?v ?w] =>
      destruct (location_init_runs a b v w) as (b0 & w' & _ & ->)
  end.
  destruct Hc as [-> | ->]; cbn [SunriseSunset.to_pyval].
  - reflexivity.
  - destruct (SunriseSunset.to_pyval (SunriseSunset.Latitude args)); reflexivity.
Qed.

Lemma main_without_date_asserts_witness :
  SunriseSunset.opt_test no_arguments = false /\
  SunriseSunset.Date no_arguments = None /\
  (SunriseSunset.Latitude no_arguments = None \/
   SunriseSunset.Longitude no_arguments = None) /\
  fst (SunriseSunset.main Libm.reference (a_linux_run "sunrise_sunset.py") (sh_ret tt)
         no_arguments at_start) = Fails (Builtin AssertionError).
Proof.
  split; [reflexivity|]. split; [reflexivity|]. split; [left; reflexivity|].
  exact (main_without_date_asserts Libm.reference (a_linux_run "sunrise_sunset.py")
           (sh_ret tt) no_arguments at_start eq_refl eq_refl (or_introl eq_refl)).
Defined.

(** X13.  sunrise_sunset.py with [-q] and without [--test] prints nothing
    at all once it gets past the "is required" tests: no option line, no
    banner, and neither the sunrise nor the sunset it computes, whether
    the computation returns or raises.  The script has no verbosity-0
    message for its results. *)
Theorem main_quiet_prints_nothing m env run_tests args s :
  SunriseSunset.verbose args = 0 ->
  SunriseSunset.opt_test args = false ->
  (forall d, SunriseSunset.Date args = Some d ->
             SunriseSunset.falsy (SunriseSunset.Latitude args) = false /\
             SunriseSunset.falsy (SunriseSunset.Longitude args) = false) ->
  sh_out (snd (SunriseSunset.main m env run_tests args s)) = sh_out s.
Proof.
  intros Hq Ht Hc. unfold SunriseSunset.main.
  rewrite (sh_bind_returns _ _ _ _ _ (read_options_sunrise_sunset_quiet args s Hq)).
  rewrite (sh_bind_returns _ _ _ _ _ (banner_quiet env SunriseSunset.doc (hushed s) eq_refl)).
  rewrite Ht.
  assert (Hwork : forall d,
    sh_out (snd ((v <- get_verbose ;;
       new_place <- call (location_init (SunriseSunset.to_pyval (SunriseSunset.Latitude args))
                            (SunriseSunset.to_pyval (SunriseSunset.Longitude args)) v) ;;
       sun_rise <- call (sunrise m new_place d (SunriseSunset.Zenith args)) ;;
       sun_set <- call (sunset m new_place d (SunriseSunset.Zenith args)) ;;
       Script.message 1 (SFmt "Finished!" []) ;;
       (fun s => (Returns (g_errors (sh_globals s)), s))) (hushed s))) = sh_out s).
  { intros d.
    rewrite (sh_bind_returns get_verbose _ (hushed s) _ (hushed s) eq_refl).
    cbn [hushed sh_globals g_verbose].
    unfold sh_bind at 1. unfold call at 1.
    rewrite location_init_quiet by lia.
    destruct (SunriseSunset.to_pyval (SunriseSunset.Latitude args)) eqn:Elat;
      try (cbn; now rewrite app_nil_r).
    destruct (SunriseSunset.to_pyval (SunriseSunset.Longitude args)) eqn:Elon;
      try (cbn; now rewrite app_nil_r).
    cbn [ending_of wall ticks stdout map sh_wall sh_ticks sh_out sh_globals hushed].
    rewrite app_nil_r.
    unfold sh_bind at 1. rewrite call_inert by (apply sunrise_inert; cbn; lia).
    match goal with
    | |- context [ending_of ?o] => destruct o as [rise|e]
    end; cbn [ending_of]; [|reflexivity].
    unfold sh_bind at 1. rewrite call_inert by (apply sunset_inert; cbn; lia).
    match goal with
    | |- context [ending_of ?o] => destruct o as [set|e]
    end; cbn [ending_of]; [|reflexivity].
    unfold sh_bind. rewrite message_quiet by (reflexivity || lia). reflexivity. }
  destruct (SunriseSunset.Date args) as [d|] eqn:Hd.
  - destruct (Hc d eq_refl) as [-> ->]. apply Hwork.
  - apply Hwork.
Qed.

Lemma main_quiet_prints_nothing_witness :
  SunriseSunset.verbose quietly = 0 /\
  SunriseSunset.opt_test quietly = false /\
  (forall d, SunriseSunset.Date quietly = Some d ->
             SunriseSunset.falsy (SunriseSunset.Latitude quietly) = false /\
             SunriseSunset.falsy (SunriseSunset.Longitude quietly) = false) /\
  sh_out (snd (SunriseSunset.main Libm.reference (a_linux_run "sunrise_sunset.py")
                 (sh_ret tt) quietly at_start)) = sh_out at_start.
Proof.
  split; [reflexivity|]. split; [reflexivity|].
  split; [intros d _; split; reflexivity|].
  exact (main_quiet_prints_nothing Libm.reference (a_linux_run "sunrise_sunset.py")
           (sh_ret tt) quietly at_start eq_refl eq_refl
           (fun d _ => conj eq_refl eq_refl)).
Defined.

(** X14.  sunrise_sunset.py at verbosity 1 or more, with both coordinates
    given (and neither 0.0 when there is a date), at a place and date
    where [ss_calc] returns for rising and for setting: [main] returns
    [errors], and among the lines of the [location] object it prints there
    is a "Sunrise is h:mm:ss" line of [sunrise] carrying the time [ss_calc]
    returns for rising, and the last of them is the "Sunset is h:mm:ss"
    line of [sunset] carrying the one for setting. *)
Theorem main_reports_times m env run_tests args s lat lon rise set :
  1 <= SunriseSunset.verbose args ->
  SunriseSunset.opt_test args = false ->
  SunriseSunset.Latitude args = Some lat ->
  SunriseSunset.Longitude args = Some lon ->
  (SunriseSunset.Date args <> None ->
   (lat =? 0)%float = false /\ (lon =? 0)%float = false) ->
  let date_given :=
    match SunriseSunset.Date args with Some d => d | None => today env end in
  outcome_at m lat lon date_given (SunriseSunset.Zenith args) true = Ok rise ->
  outcome_at m lat lon date_given (SunriseSunset.Zenith args) false = Ok set ->
  exists s' l1 rise_line l2 set_line,
    SunriseSunset.main m env run_tests args s
    = (Returns (g_errors (sh_globals s)), s') /\
    class_lines (sh_out s')
    = (class_lines (sh_out s) ++ l1 ++ [rise_line] ++ l2 ++ [set_line])%list /\
    ln_method rise_line = "sunrise" /\
    ln_msg rise_line
    = Fmt "Sunrise is %i:%02i:%02i"
        [AInt (Datetime.hour rise); AInt (Datetime.minute rise);
         AInt (Datetime.second rise)] /\
    ln_method set_line = "sunset" /\
    ln_msg set_line
    = Fmt "Sunset is %i:%02i:%02i"
        [AInt (Datetime.hour set); AInt (Datetime.minute set);
         AInt (Datetime.second set)].
Proof.
  intros Hv Ht Hlat Hlon Hnz date_given Hrise Hset.
  unfold SunriseSunset.main.
  destruct (read_options_sunrise_sunset args s) as (s1 & E1 & V1 & R1 & C1).
  rewrite (sh_bind_returns _ _ _ _ _ E1).
  destruct (chatter_banner env SunriseSunset.doc s1) as (s2 & E2 & G2 & C2).
  rewrite (sh_bind_returns _ _ _ _ _ E2).
  rewrite Ht, Hlat, Hlon. cbn [SunriseSunset.falsy SunriseSunset.to_pyval].
  assert (Hwork : exists s' l1 rise_line l2 set_line,
    (v <- get_verbose ;;
     new_place <- call (location_init (PyFloat lat) (PyFloat lon) v) ;;
     sun_rise <- call (sunrise m new_place date_given (SunriseSunset.Zenith args)) ;;
     sun_set <- call (sunset m new_place date_given (SunriseSunset.Zenith args)) ;;
     Script.message 1 (SFmt "Finished!" []) ;;
     (fun s => (Returns (g_errors (sh_globals s)), s))) s2
    = (Returns (g_errors (sh_globals s)), s') /\
    class_lines (sh_out s')
    = (class_lines (sh_out s) ++ l1 ++ [rise_line] ++ l2 ++ [set_line])%list /\
    ln_method rise_line = "sunrise" /\
    ln_msg rise_line
    = Fmt "Sunrise is %i:%02i:%02i"
        [AInt (Datetime.hour rise); AInt (Datetime.minute rise);
         AInt (Datetime.second rise)] /\
    ln_method set_line = "sunset" /\
    ln_msg set_line
    = Fmt "Sunset is %i:%02i:%02i"
        [AInt (Datetime.hour set); AInt (Datetime.minute set);
         AInt (Datetime.second set)]).
  { rewrite (sh_bind_returns get_verbose _ s2 _ s2 eq_refl).
    rewrite G2, V1.
    (* the constructor *)
    destruct (location_init_runs (PyFloat lat) (PyFloat lon) (SunriseSunset.verbose args)
                {| wall := sh_wall s2; ticks := sh_ticks s2; stdout := [] |})
      as (b & w3 & Vb & E3).
    unfold sh_bind at 1. unfold call at 1. rewrite E3. cbn [ending_of].
    set (s3 := {| sh_wall := sh_wall s2; sh_ticks := ticks w3;
                  sh_out := (sh_out s2 ++ map FromClass (stdout w3))%list;
                  sh_globals := sh_globals s2 |}).
    set (place := {| base := b; latitude := lat; longitude := lon;
                     zenith := ["official"] |}).
    (* sunrise *)
    destruct (sunrise m place date_given (SunriseSunset.Zenith args)
                {| wall := sh_wall s3; ticks := sh_ticks s3; stdout := [] |})
      as [o4 w4] eqn:E4.
    assert (O4 : o4 = Ok rise).
    { pose proof (sunrise_outcome m b lat lon ["official"] date_given
                    (SunriseSunset.Zenith args)
                    {| wall := sh_wall s3; ticks := sh_ticks s3; stdout := [] |}) as H.
      fold place in H. rewrite E4, Hrise in H. exact H. }
    subst o4.
    destruct (sunrise_reports m place _ _ _ _ _ ltac:(cbn; lia) E4)
      as (before4 & e4 & Out4).
    destruct (call_reports _ s3 _ _ _ _ E4 Out4) as (s4 & C4 & G4 & L4).
    rewrite (sh_bind_returns _ _ _ _ _ C4).
    (* sunset *)
    destruct (sunset m place date_given (SunriseSunset.Zenith args)
                {| wall := sh_wall s4; ticks := sh_ticks s4; stdout := [] |})
      as [o5 w5] eqn:E5.
    assert (O5 : o5 = Ok set).
    { pose proof (sunset_outcome m b lat lon ["official"] date_given
                    (SunriseSunset.Zenith args)
                    {| wall := sh_wall s4; ticks := sh_ticks s4; stdout := [] |}) as H.
      fold place in H. rewrite E5, Hset in H. exact H. }
    subst o5.
    destruct (sunset_reports m place _ _ _ _ _ ltac:(cbn; lia) E5)
      as (before5 & e5 & Out5).
    destruct (call_reports _ s4 _ _ _ _ E5 Out5) as (s5 & C5 & G5 & L5).
    rewrite (sh_bind_returns _ _ _ _ _ C5).
    (* the last message *)
    destruct (chatter_message 1 (SFmt "Finished!" []) s5) as (s6 & E6 & G6 & C6).
    rewrite (sh_bind_returns _ _ _ _ _ E6).
    exists s6, (stdout w3 ++ before4)%list,
      (Line e4 (classname (base place)) "sunrise"
         (Fmt "Sunrise is %i:%02i:%02i"
            [AInt (Datetime.hour rise); AInt (Datetime.minute rise);
             AInt (Datetime.second rise)])),
      before5,
      (Line e5 (classname (base place)) "sunset"
         (Fmt "Sunset is %i:%02i:%02i"
            [AInt (Datetime.hour set); AInt (Datetime.minute set);
             AInt (Datetime.second set)])).
    split; [|split; [|cbn [ln_method ln_msg]; auto]].
    - rewrite G6, G5, G4. subst s3. cbn [sh_globals]. rewrite G2, R1. reflexivity.
    - rewrite C6, L5, L4. subst s3. cbn [sh_out].
      rewrite class_lines_app, class_lines_map, C2, C1.
      rewrite <- !app_assoc. reflexivity. }
  destruct (SunriseSunset.Date args) as [d|] eqn:Hd.
  - destruct Hnz as [-> ->]; [discriminate|]. exact Hwork.
  - exact Hwork.
Qed.

Lemma main_reports_times_witness :
  1 <= SunriseSunset.verbose at_the_test_location /\
  SunriseSunset.opt_test at_the_test_location = false /\
  SunriseSunset.Latitude at_the_test_location = Some 51.41416666%float /\
  SunriseSunset.Longitude at_the_test_location = Some (-1.515)%float /\
  outcome_at Libm.reference 51.41416666 (-1.515) (Date.make 2022 11 22) "official" true
  = Ok (Datetime.make 2022 11 22 7 34 44 tzutc) /\
  outcome_at Libm.reference 51.41416666 (-1.515) (Date.make 2022 11 22) "official" false
  = Ok (Datetime.make 2022 11 22 16 8 55 tzutc) /\
  exists s' l1 rise_line l2 set_line,
    SunriseSunset.main Libm.reference (a_linux_run "sunrise_sunset.py") (sh_ret tt)
      at_the_test_location at_start
    = (Returns 0, s') /\
    class_lines (sh_out s')
    = (class_lines (sh_out at_start) ++ l1 ++ [rise_line] ++ l2 ++ [set_line])%list /\
    ln_method rise_line = "sunrise" /\
    ln_msg rise_line = Fmt "Sunrise is %i:%02i:%02i" [AInt 7; AInt 34; AInt 44] /\
    ln_method set_line = "sunset" /\
    ln_msg set_line = Fmt "Sunset is %i:%02i:%02i" [AInt 16; AInt 8; AInt 55].
Proof.
  split; [cbn; lia|]. split; [reflexivity|]. split; [reflexivity|]. split; [reflexivity|].
  split; [exact test_location_rise|]. split; [exact test_location_set|].
  exact (main_reports_times Libm.reference (a_linux_run "sunrise_sunset.py") (sh_ret tt)
           at_the_test_location at_start 51.41416666%float (-1.515)%float
           (Datetime.make 2022 11 22 7 34 44 tzutc)
           (Datetime.make 2022 11 22 16 8 55 tzutc)
           ltac:(cbn; lia) eq_refl eq_refl eq_refl
           (fun _ => conj eq_refl eq_refl)
           test_location_rise test_location_set).
Defined.

(** X15.  winchester.py with [-q]: when [ss_calc] returns at latitude
    51.0632, longitude -1.308 for rising and for setting, [main] returns
    [errors] and adds to the output exactly three bare lines, the sunrise,
    the sunset and the day length [sunset - sunrise] (worded "today"
    without [--date], with the date otherwise); when one of the two raises,
    [main] ends in that exception and has printed nothing. *)
Theorem winchester_quiet_report m env args s :
  Winchester.verbose args = 0 ->
  let date_given :=
    match Winchester.Date args with Some d => d | None => today env end in
  let today := match Winchester.Date args with Some _ => false | None => true end in
  let r := Winchester.main m env args s in
  match outcome_at m 51.0632 (-1.308) date_given (Winchester.Zenith args) true,
        outcome_at m 51.0632 (-1.308) date_given (Winchester.Zenith args) false with
  | Ok sunrise, Ok sunset =>
      fst r = Returns (g_errors (sh_globals s)) /\
      sh_out (snd r)
      = (sh_out s ++ map Bare (winchester_report today sunrise sunset))%list
  | Raise e, _ | Ok _, Raise e =>
      fst r = Fails (Builtin e) /\ sh_out (snd r) = sh_out s
  end.
Proof.
  intros Hq date_given today0 r.
  assert (Hr : r =
    match outcome_at m 51.0632 (-1.308) date_given (Winchester.Zenith args) true,
          outcome_at m 51.0632 (-1.308) date_given (Winchester.Zenith args) false with
    | Ok sunrise, Ok sunset =>
        (Returns (g_errors (sh_globals s)),
         {| sh_wall := sh_wall s; sh_ticks := S (sh_ticks s);
            sh_out := (sh_out s ++ map Bare (winchester_report today0 sunrise sunset))%list;
            sh_globals := sh_globals (hushed s) |})
    | Raise e, _ | Ok _, Raise e =>
        (Fails (Builtin e),
         {| sh_wall := sh_wall s; sh_ticks := S (sh_ticks s); sh_out := sh_out s;
            sh_globals := sh_globals (hushed s) |})
    end).
  { subst r. unfold Winchester.main.
    rewrite (sh_bind_returns _ _ _ _ _ (read_options_winchester_quiet args s Hq)).
    rewrite (sh_bind_returns _ _ _ _ _ (banner_quiet env Winchester.doc (hushed s) eq_refl)).
    cbv zeta.
    rewrite (sh_bind_returns get_verbose _ (hushed s) _ (hushed s) eq_refl).
    cbn [hushed sh_globals g_verbose].
    change (if 0 - 1 <? 0 then 0 else 0 - 1) with 0.
    unfold sh_bind at 1. rewrite call_location_init_quiet by lia.
    unfold sh_bind at 1. rewrite call_inert by (apply sunrise_inert; cbn; lia).
    rewrite sunrise_outcome. fold date_given.
    destruct (outcome_at m 51.0632 (-1.308) date_given (Winchester.Zenith args) true)
      as [rise|e]; cbn [ending_of]; [|reflexivity].
    unfold sh_bind at 1. rewrite call_inert by (apply sunset_inert; cbn; lia).
    rewrite sunset_outcome. fold date_given.
    destruct (outcome_at m 51.0632 (-1.308) date_given (Winchester.Zenith args) false)
      as [set|e]; cbn [ending_of]; [|reflexivity].
    unfold winchester_report. subst today0.
    destruct (Winchester.Date args) as [d|];
      unfold sh_bind;
      repeat (rewrite message_0_quiet by reflexivity; cbv beta iota;
              cbn [sh_wall sh_ticks sh_out sh_globals]);
      rewrite message_quiet by (reflexivity || lia);
      cbn [map]; rewrite <- !app_assoc; reflexivity. }
  rewrite Hr.
  destruct (outcome_at m 51.0632 (-1.308) date_given (Winchester.Zenith args) true)
    as [rise|e]; [|split; reflexivity].
  destruct (outcome_at m 51.0632 (-1.308) date_given (Winchester.Zenith args) false)
    as [set|e]; split; reflexivity.
Qed.

Lemma winchester_quiet_report_witness :
  Winchester.verbose winchester_quietly = 0 /\
  fst (Winchester.main Libm.reference (a_linux_run "winchester.py")
         winchester_quietly at_start) = Returns 0 /\
  sh_out (snd (Winchester.main Libm.reference (a_linux_run "winchester.py")
                 winchester_quietly at_start))
  = map Bare (winchester_report false (Datetime.make 2022 11 22 7 32 30 tzutc)
                (Datetime.make 2022 11 22 16 9 30 tzutc)).
Proof.
  split; [reflexivity|].
  pose proof (winchester_quiet_report Libm.reference (a_linux_run "winchester.py")
                winchester_quietly at_start eq_refl) as H.
  cbv zeta in H. cbn [Winchester.Date Winchester.Zenith winchester_quietly] in H.
  rewrite winchester_rise, winchester_set in H. exact H.
Defined.

(** X16.  The day length of winchester.py, [sunset - sunrise] on what
    [ss_calc] returns for one place, date and zenith: both carry the date
    given, so it is the difference of the two times of day, [0 days] and
    that many seconds when the sunset is not the earlier one, and
    [-1 day] and the difference plus 86400 seconds when it is (a time of
    day wrapped past midnight); it never reaches a day either way. *)
Theorem day_length_within_a_day m lat lon date zenith rise set :
  outcome_at m lat lon date zenith true = Ok rise ->
  outcome_at m lat lon date zenith false = Ok set ->
  let delta := second_of_day set - second_of_day rise in
  datetime_sub set rise =
  if 0 <=? delta then {| td_days := 0; td_seconds := delta |}
  else {| td_days := -1; td_seconds := delta + 86400 |}.
Proof.
  intros Hr Hs.
  apply outcome_at_returns in Hr, Hs.
  destruct Hr as (Ry & Rm & Rd & Rh & Rmi & Rs).
  destruct Hs as (Sy & Sm & Sd & Sh & Smi & Ss).
  unfold datetime_sub, second_of_day. cbv zeta.
  rewrite Ry, Rm, Rd, Sy, Sm, Sd, Z.sub_diag, Z.mul_0_l, Z.add_0_l.
  set (delta := _ - _).
  assert (Hd : -86400 < delta < 86400) by (subst delta; lia).
  destruct (Z.leb_spec 0 delta).
  - rewrite Z.div_small, Z.mod_small by lia. reflexivity.
  - f_equal; Z.div_mod_to_equations; lia.
Qed.

Lemma day_length_within_a_day_witness :
  outcome_at Libm.reference 51.0632 (-1.308) (Date.make 2022 11 22) "official" true
  = Ok (Datetime.make 2022 11 22 7 32 30 tzutc) /\
  outcome_at Libm.reference 51.0632 (-1.308) (Date.make 2022 11 22) "official" false
  = Ok (Datetime.make 2022 11 22 16 9 30 tzutc) /\
  datetime_sub (Datetime.make 2022 11 22 16 9 30 tzutc)
    (Datetime.make 2022 11 22 7 32 30 tzutc)
  = {| td_days := 0; td_seconds := 31020 |}.
Proof.
  split; [exact winchester_rise|]. split; [exact winchester_set|].
  exact (day_length_within_a_day Libm.reference 51.0632 (-1.308) (Date.make 2022 11 22)
           "official" _ _ winchester_rise winchester_set).
Defined.

(** X17.  [push_verbose] and [pop_verbose] cannot be used on a [location]
    as its constructor returns it: [verbose_stack] is read but never
    created, so both end in [AttributeError], before [set_verbose] is
    called and without printing, whatever the verbosity asked for. *)
Theorem push_verbose_needs_a_stack lat lon verbosity w self w' :
  location_init lat lon verbosity w = (Ok self, w') ->
  forall asked w2,
    push_verbose (constructed (base self)) asked w2
    = (Fails (AttributeError "'location' object has no attribute 'verbose_stack'"), w2) /\
    pop_verbose (constructed (base self)) w2
    = (Fails (AttributeError "'location' object has no attribute 'verbose_stack'"), w2).
Proof.
  intros H asked w2. apply location_init_base in H.
  unfold push_verbose, pop_verbose, constructed, no_attribute.
  cbn [verbose_stack attrs]. rewrite H. split; reflexivity.
Qed.

Lemma push_verbose_needs_a_stack_witness :
  location_init (PyFloat 51.41416666) (PyFloat (-1.515)) 1 quiet_world
  = (Ok (location_at 51.41416666 (-1.515)),
     {| wall := fun _ => 0%float; ticks := 2;
        stdout := [Line 0 "sunrise_sunset.location" "__init__"
                     (Fmt "location class constructor" [])] |}) /\
  forall asked w2,
    push_verbose (constructed (base (location_at 51.41416666 (-1.515)))) asked w2
    = (Fails (AttributeError "'location' object has no attribute 'verbose_stack'"), w2) /\
    pop_verbose (constructed (base (location_at 51.41416666 (-1.515)))) w2
    = (Fails (AttributeError "'location' object has no attribute 'verbose_stack'"), w2).
Proof.
  split; [reflexivity|].
  exact (push_verbose_needs_a_stack (PyFloat 51.41416666) (PyFloat (-1.515)) 1
           quiet_world (location_at 51.41416666 (-1.515)) _ eq_refl).
Defined.

(** X18.  On an object that does have a [verbose_stack], [pop_verbose]
    undoes [push_verbose]: the push returns the level in force, sets the
    one asked for and puts the old one on the stack; the pop that follows
    returns the level asked for and leaves the object as it was before the
    push, attributes and stack. *)
Theorem push_then_pop_restores a stack verbosity w :
  exists self1 w1 w2,
    push_verbose {| attrs := a; verbose_stack := Some stack |} verbosity w
    = (Returns (verbose a, self1), w1) /\
    verbose (attrs self1) = verbosity /\
    verbose_stack self1 = Some (stack ++ [verbose a])%list /\
    pop_verbose self1 w1
    = (Returns (verbosity, {| attrs := a; verbose_stack := Some stack |}), w2).
Proof.
  unfold push_verbose. cbn [verbose_stack attrs].
  match goal with
  | |- context [set_verbose_of ?s ?v w] =>
      destruct (set_verbose_of_runs s v w) as [w1 E1]
  end.
  cbn [attrs verbose_stack] in E1.
  eexists _, w1. 
  unfold pop_verbose.
  assert (Hlen : (0 <? Z.of_nat (List.length (stack ++ [verbose a]))) = true).
  { apply Z.ltb_lt. rewrite length_app. cbn. lia. }
  match goal with
  | |- exists w2, ?P /\ _ =>
      enough (H : exists w2, pop_verbose
                 {| attrs := {| verbose := verbosity; start_time := start_time a;
                                typename := typename a; classname := classname a |};
                    verbose_stack := Some (stack ++ [verbose a])%list |} w1
               = (Returns (verbosity, {| attrs := a; verbose_stack := Some stack |}), w2))
  end.
  { destruct H as [w2 H]. exists w2.
    split; [exact E1|]. split; [reflexivity|]. split; [reflexivity|]. exact H. }
  unfold pop_verbose. cbn [verbose_stack attrs]. rewrite Hlen.
  rewrite last_last, removelast_last.
  match goal with
  | |- context [set_verbose_of ?s ?v w1] =>
      destruct (set_verbose_of_runs s v w1) as [w2 E2]
  end.
  exists w2. rewrite E2. cbn [attrs verbose verbose_stack start_time typename classname].
  destruct a. reflexivity.
Qed.
